(** * modern-loan-app: loan lifecycle and assistant orchestration

    A shallow embedding of the backend's loan routes
    ([app/api/routes/loans.py]), request schemas ([app/models/schemas.py]),
    settings ([app/config.py]), role dependencies
    ([app/auth/dependencies.py]) and the assistant manager
    ([app/services/ai_assistant.py]), followed by the properties of the
    specification that concern them.

    Conventions.
    - Python [float] is IEEE-754 binary64: Rocq's primitive [float].
    - Python [int] is [Z]; a number is an [int] or a [float], and a
      number of a tool call's arguments is the one or the other as
      [json.loads] reads it.
    - A table of the hosted store is the list of its rows, in insertion
      order; a filter chain [.eq(..).eq(..)] is [filter], [.order(..,
      desc=True)] a stable sort, [.limit(n)] is [take n].
    - Code that can raise returns [Res A]; code that writes to the store
      returns the new store next to its result, also when it raises. *)

From Stdlib Require Import ZArith Floats Sorted.
From stdpp Require Import base strings gmap list.

Set Warnings "-register-all".
Local Open Scope Z_scope.

(* ===================================================================== *)
(** * Python runtime: exceptions *)
(* ===================================================================== *)

(** The [detail] payload of an [HTTPException]. The range message of
    [calculate_loan] is an f-string over two settings; it is kept
    structured instead of rendering the floats. *)
Inductive detail : Type :=
  | Text (s : string)
  | AmountBetween (lo hi : float).

Inductive exn : Type :=
  | HTTPException (status_code : Z) (d : detail)
  | RequestValidationError (fields : list string)
  | KeyError (key : string)
  | TypeError
  | IndexError
  | AttributeError
  | ZeroDivisionError
  | OverflowError
  | JSONDecodeError
  | APIError
  | Exception (msg : string).

Inductive Res (A : Type) : Type :=
  | Ok (a : A)
  | Raise (e : exn).
Arguments Ok {A} a.
Arguments Raise {A} e.

#[global] Instance res_ret : MRet Res := λ A, Ok.
#[global] Instance res_bind : MBind Res := λ A B k r,
  match r with
  | Ok a => k a
  | Raise e => Raise e
  end.

Definition HTTP_400_BAD_REQUEST : Z := 400.
Definition HTTP_403_FORBIDDEN : Z := 403.
Definition HTTP_404_NOT_FOUND : Z := 404.

(** Status codes 4xx, the client errors. *)
Definition client_error (code : Z) : bool :=
  (400 <=? code) && (code <? 500).

(* ===================================================================== *)
(** * Python runtime: numbers *)
(* ===================================================================== *)

Definition prec : Z := 53.
Definition emax : Z := 1024.

(** The binary64 value nearest to the rational [(-1)^s * p / q], ties to
    even; an infinity when the quotient is out of range. *)
Definition nearest_float (s : bool) (p q : positive) : float :=
  SF2Prim (SFdiv prec emax (S754_finite s p 0) (S754_finite false q 0)).

(** Magnitudes from [2^1024 - 2^970] on round to an infinity. *)
Definition DBL_OVERFLOW : Z := 2 ^ 1024 - 2 ^ 970.

(** [float(n)] for an [int]. *)
Definition float_of_int (n : Z) : Res float :=
  if DBL_OVERFLOW <=? Z.abs n then Raise OverflowError
  else Ok match n with
          | Z0 => 0%float
          | Zpos p => nearest_float false p 1
          | Zneg p => nearest_float true p 1
          end.

(** [a / b] on two [int]s: the correctly rounded quotient. *)
Definition int_truediv (a b : Z) : Res float :=
  if b =? 0 then Raise ZeroDivisionError
  else if DBL_OVERFLOW * Z.abs b <=? Z.abs a then Raise OverflowError
  else Ok match a with
          | Z0 => if b <? 0 then (-0)%float else 0%float
          | _ => nearest_float (xorb (a <? 0) (b <? 0))
                   (Z.to_pos (Z.abs a)) (Z.to_pos (Z.abs b))
          end.

(** [x / y] on two [float]s: IEEE division, except that a zero divisor
    raises. *)
Definition float_truediv (x y : float) : Res float :=
  if (y =? 0)%float then Raise ZeroDivisionError else Ok (x / y)%float.

(** [x / n] for a [float] and an [int]: the [int] is converted first. *)
Definition float_truediv_int (x : float) (n : Z) : Res float :=
  if n =? 0 then Raise ZeroDivisionError
  else y ← float_of_int n; Ok (x / y)%float.

(** A Python number: an [int], of any size, or a [float]. A [bool] is an
    [int], [False] being 0 and [True] 1. *)
Inductive number : Type :=
  | Int (n : Z)
  | Float (x : float).

(** [a * b] on two numbers: exact on two [int]s; with a [float] operand
    the [int] is converted first, which raises when it is out of range. *)
Definition number_mul (a b : number) : Res number :=
  match a, b with
  | Int n, Int m => Ok (Int (n * m))
  | Int n, Float y => x ← float_of_int n; Ok (Float (x * y)%float)
  | Float x, Int m => y ← float_of_int m; Ok (Float (x * y)%float)
  | Float x, Float y => Ok (Float (x * y)%float)
  end.

(** [a / k] for a number and an [int]. *)
Definition number_truediv_int (a : number) (k : Z) : Res float :=
  match a with
  | Int n => int_truediv n k
  | Float x => float_truediv_int x k
  end.

(** [a + y] for a number and a [float]. *)
Definition number_add_float (a : number) (y : float) : Res float :=
  match a with
  | Int n => x ← float_of_int n; Ok (x + y)%float
  | Float x => Ok (x + y)%float
  end.

(** [x / b] for a [float] and a number. *)
Definition float_truediv_number (x : float) (b : number) : Res float :=
  match b with
  | Int n => float_truediv_int x n
  | Float y => float_truediv x y
  end.

(** The size of an index, here of 64 bits: the bound on the count a
    sequence is repeated by, and on the length of the result. *)
Definition PY_SSIZE_T_MAX : Z := 2 ^ 63 - 1.
Definition PY_SSIZE_T_MIN : Z := - 2 ^ 63.

(** The integer nearest to [n / d], ties to even, for [0 <= n]. *)
Definition round_half_even (n : Z) (d : positive) : Z :=
  let q := n / Zpos d in
  match 2 * (n mod Zpos d) ?= Zpos d with
  | Lt => q
  | Gt => q + 1
  | Eq => if Z.even q then q else q + 1
  end.

(** [round(x, 2)] on a [float]: the exact value of [x] is rounded to two
    decimals, ties to even, and the decimal is read back as the nearest
    binary64. Infinities and NaN round to themselves; the sign of a zero
    result is the sign of [x]. *)
Definition py_round2 (x : float) : float :=
  match Prim2SF x with
  | S754_finite s m e =>
      let hundredths :=
        match e with
        | Zneg k => round_half_even (Zpos m * 100) (2 ^ k)%positive
        | _ => Zpos m * 100 * 2 ^ e
        end in
      match hundredths with
      | Zpos n => nearest_float s n 100
      | _ => SF2Prim (S754_zero s)
      end
  | _ => x
  end.

(** Truth value of a [float]: zero (of either sign) is false, NaN true. *)
Definition float_truthy (x : float) : bool := negb (x =? 0)%float.

(** [x or d] for [x : Optional[float]]. *)
Definition or_float (x : option float) (d : float) : float :=
  match x with
  | Some v => if float_truthy v then v else d
  | None => d
  end.

(** [n or d] for [n : Optional[int]]. *)
Definition or_int (n : option Z) (d : Z) : Z :=
  match n with
  | Some v => if v =? 0 then d else v
  | None => d
  end.

(** A float that is a number: NaN is the one value not equal to itself. *)
Definition is_number (x : float) : bool := (x =? x)%float.

(* ===================================================================== *)
(** * app/config.py *)
(* ===================================================================== *)

Record Settings : Type := {
  DEFAULT_INTEREST_RATE : float;
  MIN_LOAN_AMOUNT : float;
  MAX_LOAN_AMOUNT : float;
  DEFAULT_LOAN_TENURE_DAYS : Z
}.

(** The values of [class Settings] when the environment overrides none. *)
Definition settings : Settings := {|
  DEFAULT_INTEREST_RATE := 15;
  MIN_LOAN_AMOUNT := 1000;
  MAX_LOAN_AMOUNT := 50000;
  DEFAULT_LOAN_TENURE_DAYS := 30
|}.

(* ===================================================================== *)
(** * app/models/schemas.py *)
(* ===================================================================== *)

Inductive LoanStatus : Type :=
  | PENDING | APPROVED | REJECTED | ACTIVE | COMPLETED | DEFAULTED.

Definition LoanStatus_value (s : LoanStatus) : string :=
  match s with
  | PENDING => "pending"
  | APPROVED => "approved"
  | REJECTED => "rejected"
  | ACTIVE => "active"
  | COMPLETED => "completed"
  | DEFAULTED => "defaulted"
  end.

Inductive UserRole : Type := CUSTOMER | AGENT | ADMIN.

Definition UserRole_value (r : UserRole) : string :=
  match r with
  | CUSTOMER => "customer"
  | AGENT => "agent"
  | ADMIN => "admin"
  end.

(** [LoanCalculateRequest]: the body of POST /loans/calculate. *)
Module LoanCalculateRequest.
Record t : Type := {
  amount : float;
  interest_rate : option float;
  tenure_days : option Z
}.

(** The constraints the model declares: [amount] has [gt=0], and
    [tenure_days], when it is not null, has [gt=0]. The error names every
    field that fails. *)
Definition validate (r : t) : Res t :=
  let errors :=
    (if (0 <? amount r)%float then [] else ["amount"])
    ++ match tenure_days r with
       | Some n => if 0 <? n then [] else ["tenure_days"]
       | None => []
       end in
  match errors with
  | [] => Ok r
  | _ => Raise (RequestValidationError errors)
  end.
End LoanCalculateRequest.

(** [LoanCalculateResponse]: the response of POST /loans/calculate. *)
Module LoanCalculateResponse.
Record t : Type := {
  amount : float;
  interest_rate : float;
  tenure_days : Z;
  interest_amount : float;
  total_repayment : float;
  daily_interest : float
}.
End LoanCalculateResponse.

(** [LoanUpdateStatus]: the body of PUT /loans/{id}/status. *)
Module LoanUpdateStatus.
Record t : Type := {
  status : LoanStatus;
  ai_decision : option string;
  ai_confidence : option float
}.
End LoanUpdateStatus.

(* ===================================================================== *)
(** * The hosted store *)
(* ===================================================================== *)

(** A row of [users], as the dependencies hand it to a route. *)
Module User.
Record t : Type := {
  id : string;
  role : string;
  status : string
}.
End User.

(** A row of [loans]. *)
Module Loan.
Record t : Type := {
  id : string;
  user_id : string;
  amount : float;
  interest_rate : float;
  tenure_days : Z;
  total_repayment : float;
  status : string;
  approved_by : option string;
  approved_at : option Z;
  ai_decision : option string;
  ai_confidence : option float;
  created_at : Z
}.

(** The dictionary handed to [.update(..)]: a key that is absent leaves
    the column alone, a key that is present overwrites it, with null
    when its value is [None]. *)
Record patch : Type := {
  set_status : option string;
  set_approved_by : option (option string);
  set_approved_at : option (option Z);
  set_ai_decision : option (option string);
  set_ai_confidence : option (option float)
}.

Definition apply (p : patch) (l : t) : t := {|
  id := id l;
  user_id := user_id l;
  amount := amount l;
  interest_rate := interest_rate l;
  tenure_days := tenure_days l;
  total_repayment := total_repayment l;
  status := default (status l) (set_status p);
  approved_by := default (approved_by l) (set_approved_by p);
  approved_at := default (approved_at l) (set_approved_at p);
  ai_decision := default (ai_decision l) (set_ai_decision p);
  ai_confidence := default (ai_confidence l) (set_ai_confidence p);
  created_at := created_at l
|}.
End Loan.

(** A row of [transactions]. *)
Module Transaction.
Record t : Type := {
  loan_id : string;
  user_id : string;
  type : string;
  amount : float;
  balance_after : float;
  notes : string;
  created_at : Z
}.
End Transaction.

(** A row of [conversation_threads]. *)
Module Thread.
Record t : Type := {
  id : string;
  user_id : string;
  openai_thread_id : string;
  status : string;
  created_at : Z
}.
End Thread.

(** A row of [messages]. *)
Module Message.
Record t : Type := {
  thread_id : string;
  role : string;
  content : string
}.
End Message.

(** JSON values, as [json.loads] returns them: a number written without
    fraction and exponent is an [int], any other number a [float]; an
    object is a [dict]. *)
Inductive json : Type :=
  | JNull
  | JBool (b : bool)
  | JInt (n : Z)
  | JNum (x : float)
  | JStr (s : string)
  | JArr (items : list json)
  | JObj (fields : gmap string json).

Record DB : Type := {
  loans : list Loan.t;
  transactions : list Transaction.t;
  conversation_threads : list Thread.t;
  messages : list Message.t;
  customer_profiles : list (gmap string json)
}.

(** What the store fills in on an insert: the row's key and its
    [created_at]. *)
Record Generated : Type := {
  uuid : string;
  now : Z
}.

Definition with_loans (ls : list Loan.t) (db : DB) : DB := {|
  loans := ls;
  transactions := transactions db;
  conversation_threads := conversation_threads db;
  messages := messages db;
  customer_profiles := customer_profiles db
|}.

Definition with_transactions (ts : list Transaction.t) (db : DB) : DB := {|
  loans := loans db;
  transactions := ts;
  conversation_threads := conversation_threads db;
  messages := messages db;
  customer_profiles := customer_profiles db
|}.

Definition with_conversation_threads (ts : list Thread.t) (db : DB)
    : DB := {|
  loans := loans db;
  transactions := transactions db;
  conversation_threads := ts;
  messages := messages db;
  customer_profiles := customer_profiles db
|}.

Definition with_messages (ms : list Message.t) (db : DB) : DB := {|
  loans := loans db;
  transactions := transactions db;
  conversation_threads := conversation_threads db;
  messages := ms;
  customer_profiles := customer_profiles db
|}.

Definition with_customer_profiles (ps : list (gmap string json)) (db : DB)
    : DB := {|
  loans := loans db;
  transactions := transactions db;
  conversation_threads := conversation_threads db;
  messages := messages db;
  customer_profiles := ps
|}.

(** [.update(p).eq("id", loan_id)] on [loans]: every row with that id is
    patched; the others are left as they are. *)
Definition update_loans_by_id (p : Loan.patch) (loan_id : string)
    (ls : list Loan.t) : list Loan.t :=
  (λ l, if decide (Loan.id l = loan_id) then Loan.apply p l else l) <$> ls.

(** [.order("created_at", desc=True)]: a stable insertion sort, newest
    first. *)
Section order_desc.
Context {A : Type} (key : A → Z).

Fixpoint insert_desc (x : A) (l : list A) : list A :=
  match l with
  | [] => [x]
  | y :: l' => if key y <=? key x then x :: l else y :: insert_desc x l'
  end.

Definition order_desc (l : list A) : list A :=
  foldr insert_desc [] l.
End order_desc.

(** A request to the hosted store can fail (the network, a constraint of
    the table): [.execute()] then raises and the request has written
    nothing. [outage k] tells whether the [k]-th request that a handler
    sends fails, counting from 0. *)
Definition outage : Type := nat → bool.

Definition no_outage : outage := λ _, false.

(* ===================================================================== *)
(** * app/auth/dependencies.py *)
(* ===================================================================== *)

Definition get_current_active_user (current_user : User.t) : Res User.t :=
  if decide (User.status current_user ≠ "active")
  then Raise (HTTPException HTTP_403_FORBIDDEN (Text "Inactive user"))
  else Ok current_user.

Definition require_agent_or_admin (current_user : User.t) : Res User.t :=
  if decide (User.role current_user ∉ [UserRole_value AGENT; UserRole_value ADMIN])
  then Raise (HTTPException HTTP_403_FORBIDDEN
                (Text "Agent or admin access required"))
  else Ok current_user.

(* ===================================================================== *)
(** * app/api/routes/loans.py *)
(* ===================================================================== *)

(** [calculate_loan], on a request that passed the model's validation. *)
Definition calculate_loan (cfg : Settings) (request : LoanCalculateRequest.t)
    : Res LoanCalculateResponse.t :=
  let amount := LoanCalculateRequest.amount request in
  let interest_rate :=
    or_float (LoanCalculateRequest.interest_rate request)
      (DEFAULT_INTEREST_RATE cfg) in
  let tenure_days :=
    or_int (LoanCalculateRequest.tenure_days request)
      (DEFAULT_LOAN_TENURE_DAYS cfg) in
  if (amount <? MIN_LOAN_AMOUNT cfg)%float
     || (MAX_LOAN_AMOUNT cfg <? amount)%float
  then Raise (HTTPException HTTP_400_BAD_REQUEST
                (AmountBetween (MIN_LOAN_AMOUNT cfg) (MAX_LOAN_AMOUNT cfg)))
  else
    months ← int_truediv tenure_days 30;
    let interest_amount := (amount * interest_rate / 100 * months)%float in
    let total_repayment := (amount + interest_amount)%float in
    daily_interest ← float_truediv_int interest_amount tenure_days;
    Ok {| LoanCalculateResponse.amount := amount;
          LoanCalculateResponse.interest_rate := interest_rate;
          LoanCalculateResponse.tenure_days := tenure_days;
          LoanCalculateResponse.interest_amount := py_round2 interest_amount;
          LoanCalculateResponse.total_repayment := py_round2 total_repayment;
          LoanCalculateResponse.daily_interest := py_round2 daily_interest |}.

(** POST /loans/calculate: the body is validated against
    [LoanCalculateRequest] before [calculate_loan] runs. *)
Definition POST_loans_calculate (cfg : Settings) (body : LoanCalculateRequest.t)
    : Res LoanCalculateResponse.t :=
  request ← LoanCalculateRequest.validate body;
  calculate_loan cfg request.

(** The [update_data] of [update_loan_status]: the approver and the time
    of approval are keys only when the new status is [approved]. *)
Definition status_update_data (now : Z) (status_update : LoanUpdateStatus.t)
    (current_user : User.t) : Loan.patch :=
  let value := LoanStatus_value (LoanUpdateStatus.status status_update) in
  let approved := bool_decide (value = "approved") in {|
    Loan.set_status := Some value;
    Loan.set_ai_decision := Some (LoanUpdateStatus.ai_decision status_update);
    Loan.set_ai_confidence :=
      Some (LoanUpdateStatus.ai_confidence status_update);
    Loan.set_approved_by :=
      if approved then Some (Some (User.id current_user)) else None;
    Loan.set_approved_at := if approved then Some (Some now) else None
  |}.

(** [update_loan_status], for a user the role dependency let through. *)
Definition update_loan_status (now : Z) (loan_id : string)
    (status_update : LoanUpdateStatus.t) (current_user : User.t) (db : DB)
    : Res Loan.t * DB :=
  let update_data := status_update_data now status_update current_user in
  let db' := with_loans (update_loans_by_id update_data loan_id (loans db)) db in
  match filter (λ l, Loan.id l = loan_id) (loans db') with
  | [] => (Raise (HTTPException HTTP_404_NOT_FOUND (Text "Loan not found")), db')
  | row :: _ => (Ok row, db')
  end.

(** PUT /loans/{loan_id}/status: [Depends(require_agent_or_admin)] runs
    first. *)
Definition PUT_loans_status (now : Z) (loan_id : string)
    (status_update : LoanUpdateStatus.t) (user : User.t) (db : DB)
    : Res Loan.t * DB :=
  match get_current_active_user user ≫= require_agent_or_admin with
  | Raise e => (Raise e, db)
  | Ok current_user => update_loan_status now loan_id status_update current_user db
  end.

(** The dictionary [accept_loan] updates the loan with. *)
Definition acceptance_update_data (now : Z) : Loan.patch := {|
  Loan.set_status := Some "approved";
  Loan.set_approved_at := Some (Some now);
  Loan.set_approved_by := None;
  Loan.set_ai_decision := None;
  Loan.set_ai_confidence := None
|}.

(** The row [accept_loan] inserts into [transactions]. *)
Definition disbursement (now : Z) (loan_id : string) (current_user : User.t)
    (loan : Loan.t) : Transaction.t := {|
  Transaction.loan_id := loan_id;
  Transaction.user_id := User.id current_user;
  Transaction.type := "disbursement";
  Transaction.amount := Loan.amount loan;
  Transaction.balance_after := Loan.total_repayment loan;
  Transaction.notes := "Loan disbursement";
  Transaction.created_at := now
|}.

(** [accept_loan] sends three requests: the select (0), the update of the
    loan (1) and the insert of the transaction (2). *)
Definition accept_loan (down : outage) (now : Z) (loan_id : string)
    (current_user : User.t) (db : DB) : Res Loan.t * DB :=
  if down 0%nat then (Raise APIError, db)
  else
    let loan_result :=
      filter (λ l, Loan.id l = loan_id ∧ Loan.user_id l = User.id current_user)
        (loans db) in
    match loan_result with
    | [] =>
        (Raise (HTTPException HTTP_404_NOT_FOUND (Text "Loan not found")), db)
    | loan :: _ =>
        if decide (Loan.status loan ≠ "pending")
        then (Raise (HTTPException HTTP_400_BAD_REQUEST
                       (Text "Loan cannot be accepted in current status")), db)
        else if down 1%nat then (Raise APIError, db)
        else
          let db1 :=
            with_loans
              (update_loans_by_id (acceptance_update_data now) loan_id (loans db))
              db in
          let updated_loan := filter (λ l, Loan.id l = loan_id) (loans db1) in
          if down 2%nat then (Raise APIError, db1)
          else
            let db2 :=
              with_transactions
                (transactions db1 ++ [disbursement now loan_id current_user loan])
                db1 in
            match updated_loan with
            | [] => (Raise IndexError, db2)
            | row :: _ => (Ok row, db2)
            end
    end.

(* ===================================================================== *)
(** * app/services/ai_assistant.py *)
(* ===================================================================== *)

(** A tool call of a run that requires action. [arguments] is the result
    of [json.loads] on the call's argument text: [None] when the text is
    not JSON. *)
Module ToolCall.
Record t : Type := {
  id : string;
  name : string;
  arguments : option json
}.
End ToolCall.

(** The dictionary [_calculate_loan] returns: its three inputs as it
    received them, and the three rounded amounts. *)
Module Offer.
Record t : Type := {
  amount : json;
  interest_rate : json;
  tenure_days : json;
  interest_amount : float;
  total_repayment : float;
  daily_interest : float
}.
End Offer.

(** The dictionaries the tool handlers return. *)
Inductive tool_result : Type :=
  | OfferDict (offer : Offer.t)
  | AcceptanceDict (success : bool) (status : string)
  | LoanInfoDict (loans : list Loan.t) (transactions : list Transaction.t)
  | OnboardingDict (success : bool) (onboarding_completed : bool)
  | ErrorDict (error : string).

(** An element of [tool_outputs]; [output] stands for its [json.dumps]. *)
Module ToolOutput.
Record t : Type := {
  tool_call_id : string;
  output : tool_result
}.
End ToolOutput.

(** What one [runs.retrieve] answers: the status of the run and, when it
    requires action, the tool calls to carry out. *)
Module Run.
Record t : Type := {
  status : string;
  tool_calls : list ToolCall.t
}.
End Run.

(** The hosted assistant, as far as one [send_message] sees it: the
    answers to its successive [runs.retrieve] polls, and the text blocks
    of each message that [messages.list(order="desc", limit=1)] returns
    after the run ([None] is a block without text). *)
Module Assistant.
Record t : Type := {
  polls : list Run.t;
  listing : list (list (option string))
}.
End Assistant.

(** The dictionary [send_message] returns. *)
Module ChatReply.
Record t : Type := {
  message : string;
  thread_id : string;
  role : string
}.
End ChatReply.

(** How a call of [send_message] ends: it returns, it raises, or its
    [while True] loop is still polling when the answers run out. *)
Inductive outcome (A : Type) : Type :=
  | Returned (a : A)
  | Raised (e : exn)
  | Polling.
Arguments Returned {A} a.
Arguments Raised {A} e.
Arguments Polling {A}.

(** The number a JSON value is in arithmetic, if it is one: [bool] is a
    subclass of [int]. *)
Definition as_number (v : json) : option number :=
  match v with
  | JInt n => Some (Int n)
  | JNum x => Some (Float x)
  | JBool b => Some (Int (if b then 1 else 0))
  | _ => None
  end.

(** A value as an operand of [/] and [+] with a number: only a number is
    one. *)
Definition operand (v : json) : Res number :=
  match as_number v with
  | Some x => Ok x
  | None => Raise TypeError
  end.

(** The strings and lists, which [*] repeats. *)
Definition is_sequence (v : json) : bool :=
  match v with
  | JStr _ | JArr _ => true
  | _ => false
  end.

(** What [a * b] yields: a number, or a repeated string or list, of which
    nothing but its type matters below. *)
Inductive product : Type :=
  | Number (v : number)
  | Repeated.

(** [seq * n] and [n * seq]. The count has to fit an index, and a string
    repeated twice or more has to stay within the length of an index.
    Within these bounds the result is taken to fit in memory: no
    [MemoryError] is modelled. *)
Definition sequence_repeat (seq : json) (n : Z) : Res product :=
  if negb (is_sequence seq) then Raise TypeError
  else if (n <? PY_SSIZE_T_MIN) || (PY_SSIZE_T_MAX <? n) then Raise OverflowError
  else match seq with
       | JStr s =>
           if (2 <=? n) && (PY_SSIZE_T_MAX / n <? Z.of_nat (String.length s))
           then Raise OverflowError
           else Ok Repeated
       | _ => Ok Repeated
       end.

(** [a * b] on two JSON values. *)
Definition py_mul (a b : json) : Res product :=
  match as_number a, as_number b with
  | Some x, Some y => v ← number_mul x y; Ok (Number v)
  | Some (Int n), None => sequence_repeat b n
  | None, Some (Int n) => sequence_repeat a n
  | _, _ => Raise TypeError
  end.

(** [p / k] for a product and an [int]. *)
Definition product_truediv_int (p : product) (k : Z) : Res float :=
  match p with
  | Number v => number_truediv_int v k
  | Repeated => Raise TypeError
  end.

(** Truth value of a JSON value. *)
Definition truthy (v : json) : bool :=
  match v with
  | JNull => false
  | JBool b => b
  | JInt n => negb (n =? 0)
  | JNum x => float_truthy x
  | JStr s => negb (bool_decide (s = ""))
  | JArr items => negb (bool_decide (items = []))
  | JObj fields => negb (bool_decide (dom fields = ∅))
  end.

Definition _calculate_loan (cfg : Settings) (args : json) : Res tool_result :=
  match args with
  | JObj d =>
      match d !! "amount" with
      | None => Raise (KeyError "amount")
      | Some amount =>
          let interest_rate :=
            default (JNum (DEFAULT_INTEREST_RATE cfg)) (d !! "interest_rate") in
          let tenure_days :=
            default (JInt (DEFAULT_LOAN_TENURE_DAYS cfg)) (d !! "tenure_days") in
          charge ← py_mul amount interest_rate;
          percent ← product_truediv_int charge 100;
          tenure ← operand tenure_days;
          months ← number_truediv_int tenure 30;
          let interest_amount := (percent * months)%float in
          principal ← operand amount;
          total_repayment ← number_add_float principal interest_amount;
          daily_interest ← float_truediv_number interest_amount tenure;
          Ok (OfferDict {|
            Offer.amount := amount;
            Offer.interest_rate := interest_rate;
            Offer.tenure_days := tenure_days;
            Offer.interest_amount := py_round2 interest_amount;
            Offer.total_repayment := py_round2 total_repayment;
            Offer.daily_interest := py_round2 daily_interest |})
      end
  | _ => Raise TypeError
  end.

(** The rows of [loans] that [.eq("id", loan_id)] selects for a JSON
    [loan_id]: a row's id is a string, so only a string selects any. *)
Definition selects (loan_id : json) (l : Loan.t) : bool :=
  match loan_id with
  | JStr s => bool_decide (Loan.id l = s)
  | _ => false
  end.

(** The dictionary [_store_acceptance] updates the loan with: the literal
    ["now()"] is the store's clock, [None] is null. *)
Definition decision_update_data (now : Z) (accepted : bool) : Loan.patch := {|
  Loan.set_status := Some (if accepted then "approved" else "rejected");
  Loan.set_approved_at := Some (if accepted then Some now else None);
  Loan.set_approved_by := None;
  Loan.set_ai_decision := None;
  Loan.set_ai_confidence := None
|}.

Definition _store_acceptance (now : Z) (args : json) (user_id : string)
    (db : DB) : Res tool_result * DB :=
  match args with
  | JObj d =>
      match d !! "loan_id" with
      | None => (Raise (KeyError "loan_id"), db)
      | Some loan_id =>
          match d !! "accepted" with
          | None => (Raise (KeyError "accepted"), db)
          | Some accepted =>
              let status := if truthy accepted then "approved" else "rejected" in
              let update_data := decision_update_data now (truthy accepted) in
              let loans' :=
                (λ l, if selects loan_id l then Loan.apply update_data l else l)
                  <$> loans db in
              (Ok (AcceptanceDict true status), with_loans loans' db)
          end
      end
  | _ => (Raise TypeError, db)
  end.

Definition _get_loan_info (user_id : string) (db : DB) : tool_result :=
  let loans :=
    order_desc Loan.created_at
      (filter (λ l, Loan.user_id l = user_id) (loans db)) in
  let transactions :=
    take 10
      (order_desc Transaction.created_at
         (filter (λ t, Transaction.user_id t = user_id) (transactions db))) in
  LoanInfoDict loans transactions.

Section AIAssistantManager.

(** [.upsert(row)] on [customer_profiles]: which row it replaces depends
    on the keys of the table, which the program does not state. *)
Context (upsert : gmap string json → list (gmap string json)
                  → list (gmap string json)).

Context (cfg : Settings).

(** The row is [{"user_id": .., **profile_data, "onboarding_completed":
    True, "onboarding_completed_at": "now()"}]: a later key wins. *)
Definition _complete_onboarding (args : json) (db : DB)
    : Res tool_result * DB :=
  match args with
  | JObj d =>
      match d !! "user_id" with
      | None => (Raise (KeyError "user_id"), db)
      | Some user_id =>
          match d !! "profile_data" with
          | None => (Raise (KeyError "profile_data"), db)
          | Some (JObj profile_data) =>
              let row :=
                <["onboarding_completed_at" := JStr "now()"]>
                  (<["onboarding_completed" := JBool true]>
                     (profile_data ∪ {["user_id" := user_id]})) in
              (Ok (OnboardingDict true true),
               with_customer_profiles (upsert row (customer_profiles db)) db)
          | Some _ => (Raise TypeError, db)
          end
      end
  | _ => (Raise TypeError, db)
  end.

Definition _execute_function (now : Z) (function_name : string)
    (arguments : json) (user_id : string) (db : DB) : Res tool_result * DB :=
  if decide (function_name = "calculate_loan_offer")
  then (_calculate_loan cfg arguments, db)
  else if decide (function_name = "store_customer_acceptance")
  then _store_acceptance now arguments user_id db
  else if decide (function_name = "get_loan_info")
  then (Ok (_get_loan_info user_id db), db)
  else if decide (function_name = "complete_onboarding")
  then _complete_onboarding arguments db
  else (Ok (ErrorDict "Unknown function"), db).

(** The loop of [_handle_tool_calls], with [tool_outputs] so far. *)
Fixpoint handle_each (now : Z) (user_id : string)
    (tool_outputs : list ToolOutput.t) (tool_calls : list ToolCall.t)
    (db : DB) : Res (list ToolOutput.t) * DB :=
  match tool_calls with
  | [] => (Ok tool_outputs, db)
  | tool_call :: rest =>
      match ToolCall.arguments tool_call with
      | None => (Raise JSONDecodeError, db)
      | Some arguments =>
          match _execute_function now (ToolCall.name tool_call) arguments
                  user_id db with
          | (Raise e, db') => (Raise e, db')
          | (Ok result, db') =>
              handle_each now user_id
                (tool_outputs ++
                   [{| ToolOutput.tool_call_id := ToolCall.id tool_call;
                       ToolOutput.output := result |}])
                rest db'
          end
      end
  end.

Definition _handle_tool_calls (now : Z) (tool_calls : list ToolCall.t)
    (user_id : string) (db : DB) : Res (list ToolOutput.t) * DB :=
  handle_each now user_id [] tool_calls db.

Definition _store_message (thread_id role content : string) (db : DB) : DB :=
  match filter (λ t, Thread.openai_thread_id t = thread_id)
          (conversation_threads db) with
  | [] => db
  | thread :: _ =>
      with_messages
        (messages db ++
           [{| Message.thread_id := Thread.id thread;
               Message.role := role;
               Message.content := content |}])
        db
  end.

(** [create_thread]: [thread_id] is the id of the thread that the hosted
    assistant has just created. *)
Definition create_thread (thread_id : string) (g : Generated)
    (user_id : string) (db : DB) : option Thread.t * DB :=
  let row := {|
    Thread.id := uuid g;
    Thread.user_id := user_id;
    Thread.openai_thread_id := thread_id;
    Thread.status := "active";
    Thread.created_at := now g
  |} in
  (head [row],
   with_conversation_threads (conversation_threads db ++ [row]) db).

Definition get_or_create_thread (thread_id : string) (g : Generated)
    (user_id : string) (db : DB) : Res string * DB :=
  let result :=
    take 1
      (order_desc Thread.created_at
         (filter (λ t, Thread.user_id t = user_id ∧ Thread.status t = "active")
            (conversation_threads db))) in
  match result with
  | row :: _ => (Ok (Thread.openai_thread_id row), db)
  | [] =>
      match create_thread thread_id g user_id db with
      | (Some thread_data, db') => (Ok (Thread.openai_thread_id thread_data), db')
      | (None, db') => (Raise TypeError, db')
      end
  end.

(** The [while True] loop of [send_message] over the answers of the
    successive polls: [Returned tt] is its [break]. *)
Fixpoint wait_for_completion (now : Z) (user_id : string)
    (polls : list Run.t) (db : DB) : outcome unit * DB :=
  match polls with
  | [] => (Polling, db)
  | run_status :: later =>
      if decide (Run.status run_status = "completed") then (Returned tt, db)
      else if decide (Run.status run_status = "requires_action") then
        match _handle_tool_calls now (Run.tool_calls run_status) user_id db with
        | (Raise e, db') => (Raised e, db')
        | (Ok tool_outputs, db') => wait_for_completion now user_id later db'
        end
      else if decide (Run.status run_status ∈ ["failed"; "cancelled"; "expired"])
      then (Raised (Exception ("Run failed with status: " +:+ Run.status run_status)), db)
      else wait_for_completion now user_id later db
  end.

(** [send_message]. The calls that only talk to the hosted assistant
    (appending the message, creating the run, submitting the tool
    outputs) write nothing here and are not shown. *)
Definition send_message (now : Z) (assistant : Assistant.t)
    (thread_id message user_id : string) (db : DB)
    : outcome (option ChatReply.t) * DB :=
  let db := _store_message thread_id "user" message db in
  match wait_for_completion now user_id (Assistant.polls assistant) db with
  | (Raised e, db) => (Raised e, db)
  | (Polling, db) => (Polling, db)
  | (Returned _, db) =>
      match Assistant.listing assistant with
      | [] => (Returned None, db)
      | content :: _ =>
          match content with
          | [] => (Raised IndexError, db)
          | None :: _ => (Raised AttributeError, db)
          | Some assistant_message :: _ =>
              (Returned (Some {| ChatReply.message := assistant_message;
                                 ChatReply.thread_id := thread_id;
                                 ChatReply.role := "assistant" |}),
               _store_message thread_id "assistant" assistant_message db)
          end
      end
  end.

End AIAssistantManager.

(* ===================================================================== *)
(** * The other routes of app/api/routes/loans.py *)
(* ===================================================================== *)

Definition HTTP_500_INTERNAL_SERVER_ERROR : Z := 500.

(** [LoanCreateRequest]: the body of POST /loans/. *)
Module LoanCreateRequest.
Record t : Type := {
  amount : float;
  interest_rate : option float;
  tenure_days : option Z;
  ai_decision : option string;
  ai_confidence : option float
}.

(** The constraints are those of [LoanCalculateRequest]. *)
Definition validate (r : t) : Res t :=
  let errors :=
    (if (0 <? amount r)%float then [] else ["amount"])
    ++ match tenure_days r with
       | Some n => if 0 <? n then [] else ["tenure_days"]
       | None => []
       end in
  match errors with
  | [] => Ok r
  | _ => Raise (RequestValidationError errors)
  end.
End LoanCreateRequest.

(** [calc_result.name], where [calc_result] is what [await
    calculate_loan(..)] returns: the route decorator hands the function
    back as it is, so the value is the [dict] of the [return] statement,
    and a [dict] has no attribute named after one of its keys. *)
Definition dict_attribute {A : Type} (calc_result : LoanCalculateResponse.t)
    (name : string) : Res A :=
  Raise AttributeError.

(** [create_loan]. The request for the calculation is built from the
    fields of the body, which runs the constraints of
    [LoanCalculateRequest] again; [due_date] is no column of the rows
    modelled here. *)
Definition create_loan (cfg : Settings) (g : Generated)
    (request : LoanCreateRequest.t) (current_user : User.t) (db : DB)
    : Res Loan.t * DB :=
  let calc_result :=
    LoanCalculateRequest.validate {|
      LoanCalculateRequest.amount := LoanCreateRequest.amount request;
      LoanCalculateRequest.interest_rate :=
        LoanCreateRequest.interest_rate request;
      LoanCalculateRequest.tenure_days := LoanCreateRequest.tenure_days request
    |} ≫= calculate_loan cfg in
  match calc_result with
  | Raise e => (Raise e, db)
  | Ok calc_result =>
      let loan_data :=
        interest_rate ← dict_attribute calc_result "interest_rate";
        tenure_days ← dict_attribute calc_result "tenure_days";
        total_repayment ← dict_attribute calc_result "total_repayment";
        Ok {| Loan.id := uuid g;
              Loan.user_id := User.id current_user;
              Loan.amount := LoanCreateRequest.amount request;
              Loan.interest_rate := interest_rate;
              Loan.tenure_days := tenure_days;
              Loan.total_repayment := total_repayment;
              Loan.status := "pending";
              Loan.approved_by := None;
              Loan.approved_at := None;
              Loan.ai_decision := LoanCreateRequest.ai_decision request;
              Loan.ai_confidence := LoanCreateRequest.ai_confidence request;
              Loan.created_at := now g |} in
      match loan_data with
      | Raise e => (Raise e, db)
      | Ok row => (Ok row, with_loans (loans db ++ [row]) db)
      end
  end.

(** POST /loans/: the body is validated and the user must be active
    before [create_loan] runs. *)
Definition POST_loans (cfg : Settings) (g : Generated)
    (body : LoanCreateRequest.t) (user : User.t) (db : DB) : Res Loan.t * DB :=
  match LoanCreateRequest.validate body with
  | Raise e => (Raise e, db)
  | Ok request =>
      match get_current_active_user user with
      | Raise e => (Raise e, db)
      | Ok current_user => create_loan cfg g request current_user db
      end
  end.

Definition get_user_loans (current_user : User.t) (db : DB) : list Loan.t :=
  order_desc Loan.created_at
    (filter (λ l, Loan.user_id l = User.id current_user) (loans db)).

Definition get_loan (loan_id : string) (current_user : User.t) (db : DB)
    : Res Loan.t :=
  match filter (λ l, Loan.id l = loan_id) (loans db) with
  | [] => Raise (HTTPException HTTP_404_NOT_FOUND (Text "Loan not found"))
  | loan :: _ =>
      if decide (Loan.user_id loan ≠ User.id current_user
                 ∧ User.role current_user ∉ ["admin"; "agent"])
      then Raise (HTTPException HTTP_403_FORBIDDEN
                    (Text "Not authorized to view this loan"))
      else Ok loan
  end.

(* ===================================================================== *)
(** * app/api/routes/ai.py *)
(* ===================================================================== *)

(** [ChatRequest]: the body of POST /ai/chat. *)
Module ChatRequest.
Record t : Type := {
  message : string;
  thread_id : option string
}.
End ChatRequest.

(** GET /ai/thread: the route repeats the lookup of the manager and
    returns the row, or what [create_thread] returns. *)
Definition GET_ai_thread (thread_id : string) (g : Generated)
    (current_user : User.t) (db : DB) : option Thread.t * DB :=
  let result :=
    take 1
      (order_desc Thread.created_at
         (filter (λ t, Thread.user_id t = User.id current_user
                       ∧ Thread.status t = "active")
            (conversation_threads db))) in
  match result with
  | row :: _ => (Some row, db)
  | [] => create_thread thread_id g (User.id current_user) db
  end.

Section chat.

Context (upsert : gmap string json → list (gmap string json)
                  → list (gmap string json)).
Context (cfg : Settings).

(** [str(e)], the text of an exception in the f-string of [chat]. *)
Context (str : exn → string).

(** The [except Exception] clause of [chat]. *)
Definition chat_error {A : Type} (e : exn) : outcome A :=
  Raised (HTTPException HTTP_500_INTERNAL_SERVER_ERROR
            (Text ("Chat error: " +:+ str e))).

(** POST /ai/chat. A [thread_id] of the body that is not empty is used as
    it is; [new_thread] and [g] are the thread the hosted assistant and
    the store would create otherwise. *)
Definition chat (now : Z) (new_thread : string) (g : Generated)
    (assistant : Assistant.t) (request : ChatRequest.t)
    (current_user : User.t) (db : DB) : outcome ChatReply.t * DB :=
  let given :=
    match ChatRequest.thread_id request with
    | Some thread_id => if decide (thread_id = "") then None else Some thread_id
    | None => None
    end in
  let '(thread_id, db) :=
    match given with
    | Some thread_id => (Ok thread_id, db)
    | None => get_or_create_thread new_thread g (User.id current_user) db
    end in
  match thread_id with
  | Raise e => (chat_error e, db)
  | Ok thread_id =>
      match send_message upsert cfg now assistant thread_id
              (ChatRequest.message request) (User.id current_user) db with
      | (Raised e, db) => (chat_error e, db)
      | (Polling, db) => (Polling, db)
      | (Returned None, db) =>
          (chat_error
             (HTTPException HTTP_500_INTERNAL_SERVER_ERROR
                (Text "Failed to get response from AI")), db)
      | (Returned (Some response), db) => (Returned response, db)
      end
  end.

End chat.

(* ===================================================================== *)
(** * Vocabulary of the properties *)
(* ===================================================================== *)

(** A failure that reports invalid input: the rejection of the body by the
    request model, or a 400 raised by the route. *)
Definition validation_error {A} (r : Res A) : bool :=
  match r with
  | Raise (RequestValidationError _) => true
  | Raise (HTTPException code _) => code =? HTTP_400_BAD_REQUEST
  | _ => false
  end.

(** A tenure the route computes with: positive, as the request model
    demands, and within the range of [float]. *)
Definition tenure_in_range (n : Z) : Prop := 0 < n < DBL_OVERFLOW.

(** A [tenure_days] of a request that the request model accepts and the
    route computes with: the given one, or the configured default when
    the request has none. *)
Definition accepted_tenure (cfg : Settings) (tenure_days : option Z) : Prop :=
  tenure_in_range (default (DEFAULT_LOAN_TENURE_DAYS cfg) tenure_days).

(** An amount outside [MIN_LOAN_AMOUNT, MAX_LOAN_AMOUNT]. *)
Definition out_of_range (cfg : Settings) (amount : float) : bool :=
  (amount <? MIN_LOAN_AMOUNT cfg)%float || (MAX_LOAN_AMOUNT cfg <? amount)%float.

(** The arguments of a [calculate_loan_offer] call. *)
Definition offer_fields (amount : float)
    (interest_rate tenure_days : option float) : gmap string json :=
  <["amount" := JNum amount]>
    (from_option (λ r, {["interest_rate" := JNum r]}) ∅ interest_rate
     ∪ from_option (λ t, {["tenure_days" := JNum t]}) ∅ tenure_days).

Definition offer_args (amount : float) (interest_rate tenure_days : option float)
    : json :=
  JObj (offer_fields amount interest_rate tenure_days).

(** A number as [json.loads] returns it. *)
Definition number_json (v : number) : json :=
  match v with
  | Int n => JInt n
  | Float x => JNum x
  end.

(** The arguments of a [calculate_loan_offer] call whose numbers are of
    either kind. *)
Definition number_fields (amount : number)
    (interest_rate tenure_days : option number) : gmap string json :=
  <["amount" := number_json amount]>
    (from_option (λ r, {["interest_rate" := number_json r]}) ∅ interest_rate
     ∪ from_option (λ t, {["tenure_days" := number_json t]}) ∅ tenure_days).

Definition number_args (amount : number)
    (interest_rate tenure_days : option number) : json :=
  JObj (number_fields amount interest_rate tenure_days).

(** A number that converts to a [float]: a [float], or an [int] of a
    magnitude below [DBL_OVERFLOW]. *)
Definition in_float_range (v : number) : bool :=
  match v with
  | Int n => Z.abs n <? DBL_OVERFLOW
  | Float _ => true
  end.

(** [amount * rate / 100] stays within the range of [float]: the exact
    product of two [int]s is below a hundred times [DBL_OVERFLOW]; an
    [int] rate beside a [float] amount converts. *)
Definition percent_in_float_range (amount rate : number) : bool :=
  match amount, rate with
  | Int n, Int m => Z.abs (n * m) <? DBL_OVERFLOW * 100
  | _, _ => in_float_range rate
  end.


(** A number equal to zero: the [int] 0, or a [float] zero of either
    sign. *)
Definition is_zero (v : number) : bool :=
  match v with
  | Int n => n =? 0
  | Float x => (x =? 0)%float
  end.

(** The arguments of a [store_customer_acceptance] call. *)
Definition acceptance_args (loan_id : string) (accepted : bool) : json :=
  JObj (<["loan_id" := JStr loan_id]> {["accepted" := JBool accepted]}).

(** The names the dispatcher knows. *)
Definition known_functions : list string :=
  ["calculate_loan_offer"; "store_customer_acceptance"; "get_loan_info";
   "complete_onboarding"].

(** Sample data: a customer, an agent, a loan of the customer in a given
    status, and a store that holds this loan alone. *)
Definition alice : User.t :=
  {| User.id := "alice"; User.role := "customer"; User.status := "active" |}.

Definition agent_bob : User.t :=
  {| User.id := "bob"; User.role := "agent"; User.status := "active" |}.

Definition sample_loan (status : string) : Loan.t := {|
  Loan.id := "loan-1";
  Loan.user_id := "alice";
  Loan.amount := 1000;
  Loan.interest_rate := 15;
  Loan.tenure_days := 30;
  Loan.total_repayment := 1150;
  Loan.status := status;
  Loan.approved_by := None;
  Loan.approved_at := None;
  Loan.ai_decision := None;
  Loan.ai_confidence := None;
  Loan.created_at := 100
|}.

Definition sample_db (status : string) : DB := {|
  loans := [sample_loan status];
  transactions := [];
  conversation_threads := [];
  messages := [];
  customer_profiles := []
|}.

(** An [upsert] that resolves no conflict: the row is appended. *)
Definition upsert_append (row : gmap string json)
    (rows : list (gmap string json)) : list (gmap string json) :=
  rows ++ [row].

(** A store with one thread of alice and one earlier assistant message. *)
Definition chat_db : DB := {|
  loans := [sample_loan "pending"];
  transactions := [];
  conversation_threads :=
    [{| Thread.id := "t-1"; Thread.user_id := "alice";
        Thread.openai_thread_id := "thread_abc"; Thread.status := "active";
        Thread.created_at := 50 |}];
  messages :=
    [{| Message.thread_id := "t-1"; Message.role := "assistant";
        Message.content := "Hello, I am Lucy." |}];
  customer_profiles := []
|}.

Definition poll (status : string) : Run.t :=
  {| Run.status := status; Run.tool_calls := [] |}.

(** A run that is queued, calls an unknown tool, and then fails. *)
Definition failing_assistant : Assistant.t := {|
  Assistant.polls :=
    [poll "queued";
     {| Run.status := "requires_action";
        Run.tool_calls :=
          [{| ToolCall.id := "call_1"; ToolCall.name := "transfer_funds";
              ToolCall.arguments := Some (JObj ∅) |}] |};
     poll "failed";
     poll "completed"];
  Assistant.listing := [[Some "unreachable"]]
|}.

(** The insert of the transaction fails; the two requests before it go
    through. *)
Definition insert_fails : outage := λ k, bool_decide (k = 2%nat).

(** The terms of a loan: the columns that no route and no tool rewrites. *)
Definition loan_terms (l : Loan.t)
    : string * string * float * float * Z * float * Z :=
  (Loan.id l, Loan.user_id l, Loan.amount l, Loan.interest_rate l,
   Loan.tenure_days l, Loan.total_repayment l, Loan.created_at l).

(** The values of [LoanStatus]. *)
Definition status_values : list string :=
  LoanStatus_value <$> [PENDING; APPROVED; REJECTED; ACTIVE; COMPLETED; DEFAULTED].

(** Rows in the order of [.order("created_at", desc=True)]: no row comes
    before a newer one. *)
Definition newest_first {A : Type} (key : A → Z) (l : list A) : Prop :=
  ∀ (i j : nat) (a b : A),
    (i < j)%nat → l !! i = Some a → l !! j = Some b → key b ≤ key a.

(** The active threads of a user. *)
Definition active_threads (user_id : string) (db : DB) : list Thread.t :=
  filter (λ t, Thread.user_id t = user_id ∧ Thread.status t = "active")
    (conversation_threads db).

(** The user's part of the loans. *)
Definition loans_of (user_id : string) (db : DB) : list Loan.t :=
  filter (λ l, Loan.user_id l = user_id) (loans db).

(** What a write may do to a row of [loans]: it keeps the terms, and it
    keeps the status or writes one of the values of [LoanStatus]. *)
Definition rewritten (l l' : Loan.t) : Prop :=
  loan_terms l' = loan_terms l
  ∧ (Loan.status l' = Loan.status l ∨ Loan.status l' ∈ status_values).

(** A customer who owns no sample loan. *)
Definition mallory : User.t :=
  {| User.id := "mallory"; User.role := "customer"; User.status := "active" |}.

(** A request to reject, without an AI decision. *)
Definition reject_update : LoanUpdateStatus.t := {|
  LoanUpdateStatus.status := REJECTED;
  LoanUpdateStatus.ai_decision := None;
  LoanUpdateStatus.ai_confidence := None
|}.

(** The sample loan, approved at time 5 with a stored AI decision. *)
Definition approved_loan : Loan.t := {|
  Loan.id := "loan-1";
  Loan.user_id := "alice";
  Loan.amount := 1000;
  Loan.interest_rate := 15;
  Loan.tenure_days := 30;
  Loan.total_repayment := 1150;
  Loan.status := "approved";
  Loan.approved_by := Some "bob";
  Loan.approved_at := Some 5;
  Loan.ai_decision := Some "approve";
  Loan.ai_confidence := None;
  Loan.created_at := 100
|}.

(** The tables that no tool call writes. *)
Definition tools_leave (db db' : DB) : Prop :=
  transactions db' = transactions db
  ∧ conversation_threads db' = conversation_threads db
  ∧ messages db' = messages db.

(** A run that stores an acceptance and then completes with a reply. *)
Definition accepting_assistant : Assistant.t := {|
  Assistant.polls :=
    [poll "in_progress";
     {| Run.status := "requires_action";
        Run.tool_calls :=
          [{| ToolCall.id := "call_1";
              ToolCall.name := "store_customer_acceptance";
              ToolCall.arguments := Some (acceptance_args "loan-1" true) |}] |};
     poll "completed"];
  Assistant.listing := [[Some "Your loan is approved."]]
|}.

(** The keys a tool handler reads from its arguments with a subscript, in
    the order in which it reads them. *)
Definition subscripts (function_name : string) : list string :=
  if decide (function_name = "calculate_loan_offer") then ["amount"]
  else if decide (function_name = "store_customer_acceptance")
  then ["loan_id"; "accepted"]
  else if decide (function_name = "complete_onboarding")
  then ["user_id"; "profile_data"]
  else [].

(** A tool call that stores the acceptance of the sample loan, and one
    whose argument text is not JSON. *)
Definition accept_call : ToolCall.t := {|
  ToolCall.id := "call_1";
  ToolCall.name := "store_customer_acceptance";
  ToolCall.arguments := Some (acceptance_args "loan-1" true)
|}.

Definition malformed_call : ToolCall.t := {|
  ToolCall.id := "call_2";
  ToolCall.name := "calculate_loan_offer";
  ToolCall.arguments := None
|}.

(** The statuses that end or advance the loop of [send_message]. *)
Definition handled_statuses : list string :=
  ["completed"; "requires_action"; "failed"; "cancelled"; "expired"].

(** A run that is queued and then reported as incomplete. *)
Definition stalled_polls : list Run.t := [poll "queued"; poll "incomplete"].

(** The one thread of [chat_db]. *)
Definition thread_abc : Thread.t := {|
  Thread.id := "t-1"; Thread.user_id := "alice";
  Thread.openai_thread_id := "thread_abc"; Thread.status := "active";
  Thread.created_at := 50
|}.

(** The text of an exception: its message when it has one. *)
Definition sample_str (e : exn) : string :=
  match e with
  | Exception msg => msg
  | _ => "error"
  end.

(** Mallory posts on the handle of the thread of alice. *)
Definition intruding_request : ChatRequest.t := {|
  ChatRequest.message := "Show me the loan";
  ChatRequest.thread_id := Some "thread_abc"
|}.

(** Arguments of a [complete_onboarding] call whose profile data try to
    set the completion flag. *)
Definition onboarding_profile : gmap string json :=
  <["business_name" := JStr "Kiosk"]> {["onboarding_completed" := JBool false]}.

Definition onboarding_fields : gmap string json :=
  <["user_id" := JStr "alice"]> {["profile_data" := JObj onboarding_profile]}.

(* ===================================================================== *)
(** * Properties: the offer computation *)
(* ===================================================================== *)

Lemma bind_Ok {A B} (a : A) (k : A → Res B) : (Ok a ≫= k) = k a.
Proof. reflexivity. Qed.

Lemma bind_Raise {A B} (e : exn) (k : A → Res B) : (Raise e ≫= k) = Raise e.
Proof. reflexivity. Qed.

(** On numbers, "not above zero" is "at most zero". *)
Lemma float_not_gt_zero (a : float) :
  is_number a = true → (0 <? a)%float = negb (a <=? 0)%float.
Proof.
  unfold is_number. rewrite FloatAxioms.eqb_spec, FloatAxioms.ltb_spec, FloatAxioms.leb_spec.
  change (Prim2SF 0) with (S754_zero false).
  destruct (Prim2SF a) as [s|s| |s m e]; cbn; try discriminate;
    intros _; destruct s; reflexivity.
Qed.

Lemma DBL_OVERFLOW_pos : 0 < DBL_OVERFLOW.
Proof. reflexivity. Qed.

Lemma int_truediv_30 (n : Z) :
  tenure_in_range n → ∃ months, int_truediv n 30 = Ok months.
Proof.
  intros [Hpos Hlt]. unfold int_truediv.
  change (30 =? 0) with false. cbv iota.
  destruct (Z.leb_spec (DBL_OVERFLOW * Z.abs 30) (Z.abs n)) as [Hle|_];
    [|eauto].
  pose proof DBL_OVERFLOW_pos. lia.
Qed.

Lemma float_truediv_tenure (x : float) (n : Z) :
  tenure_in_range n → ∃ y, float_of_int n = Ok y ∧
    float_truediv_int x n = Ok (x / y)%float.
Proof.
  intros [Hpos Hlt]. unfold float_truediv_int, float_of_int.
  destruct (Z.eqb_spec n 0) as [->|_]; [lia|].
  destruct (Z.leb_spec DBL_OVERFLOW (Z.abs n)) as [Hle|_]; [lia|].
  eexists. split; reflexivity.
Qed.

(** [calculate_loan] on a request whose amount is within the configured
    range: the offer is computed from the effective rate and tenure. *)
Lemma calculate_loan_in_range (cfg : Settings) (request : LoanCalculateRequest.t) :
  let amount := LoanCalculateRequest.amount request in
  let rate :=
    or_float (LoanCalculateRequest.interest_rate request)
      (DEFAULT_INTEREST_RATE cfg) in
  let tenure :=
    or_int (LoanCalculateRequest.tenure_days request)
      (DEFAULT_LOAN_TENURE_DAYS cfg) in
  tenure_in_range tenure →
  (amount <? MIN_LOAN_AMOUNT cfg)%float = false →
  (MAX_LOAN_AMOUNT cfg <? amount)%float = false →
  ∃ months days,
    int_truediv tenure 30 = Ok months ∧ float_of_int tenure = Ok days ∧
    calculate_loan cfg request = Ok {|
      LoanCalculateResponse.amount := amount;
      LoanCalculateResponse.interest_rate := rate;
      LoanCalculateResponse.tenure_days := tenure;
      LoanCalculateResponse.interest_amount :=
        py_round2 (amount * rate / 100 * months)%float;
      LoanCalculateResponse.total_repayment :=
        py_round2 (amount + amount * rate / 100 * months)%float;
      LoanCalculateResponse.daily_interest :=
        py_round2 (amount * rate / 100 * months / days)%float |}.
Proof.
  intros amount rate tenure Ht Hmin Hmax.
  destruct (int_truediv_30 tenure Ht) as [months Hm].
  destruct (float_truediv_tenure (amount * rate / 100 * months)%float tenure Ht)
    as (days & Hd & Hdiv).
  exists months, days. split; [done|]. split; [done|].
  unfold calculate_loan. fold amount rate tenure.
  rewrite Hmin, Hmax. cbn [orb].
  rewrite Hm, bind_Ok, Hdiv, bind_Ok. reflexivity.
Qed.

Lemma or_int_accepted (cfg : Settings) (tenure_days : option Z) :
  accepted_tenure cfg tenure_days →
  or_int tenure_days (DEFAULT_LOAN_TENURE_DAYS cfg)
  = default (DEFAULT_LOAN_TENURE_DAYS cfg) tenure_days.
Proof.
  unfold accepted_tenure, tenure_in_range.
  destruct tenure_days as [n|]; cbn; [|done].
  intros [Hpos _]. destruct (Z.eqb_spec n 0); [lia|done].
Qed.

Lemma validate_accepted (cfg : Settings) (amount : float) (rate : option float)
    (tenure_days : option Z) :
  let body := {|
    LoanCalculateRequest.amount := amount;
    LoanCalculateRequest.interest_rate := rate;
    LoanCalculateRequest.tenure_days := tenure_days |} in
  accepted_tenure cfg tenure_days →
  LoanCalculateRequest.validate body =
    if (0 <? amount)%float then Ok body
    else Raise (RequestValidationError ["amount"]).
Proof.
  intros body Hn. unfold LoanCalculateRequest.validate. cbn.
  assert (Hten : match tenure_days with
                 | Some n => if 0 <? n then [] else ["tenure_days"]
                 | None => []
                 end = []).
  { destruct tenure_days as [n|]; [|done].
    destruct Hn as [Hn _]. cbn in Hn. destruct (Z.ltb_spec 0 n); [done|lia]. }
  rewrite Hten. destruct (0 <? amount)%float; reflexivity.
Qed.

(** C4. POST /loans/calculate fails with a validation error exactly when
    the amount is at most zero, below [MIN_LOAN_AMOUNT] or above
    [MAX_LOAN_AMOUNT]; for every other amount, so for every amount of the
    inclusive range, it returns an offer. The amount is a number, and the
    tenure is one the request model accepts. *)
Theorem calculate_loan_validates_amount (cfg : Settings) (amount : float)
    (rate : option float) (tenure_days : option Z) :
  let body := {|
    LoanCalculateRequest.amount := amount;
    LoanCalculateRequest.interest_rate := rate;
    LoanCalculateRequest.tenure_days := tenure_days |} in
  let rejected :=
    (amount <=? 0)%float || (amount <? MIN_LOAN_AMOUNT cfg)%float
    || (MAX_LOAN_AMOUNT cfg <? amount)%float in
  is_number amount = true →
  accepted_tenure cfg tenure_days →
  validation_error (POST_loans_calculate cfg body) = rejected
  ∧ (rejected = false → ∃ offer, POST_loans_calculate cfg body = Ok offer).
Proof.
  intros body rejected Hnum Hten. subst rejected.
  unfold POST_loans_calculate. subst body.
  rewrite (validate_accepted cfg amount rate tenure_days Hten).
  rewrite (float_not_gt_zero amount Hnum).
  destruct (amount <=? 0)%float; cbn [negb orb]; [split; [reflexivity|discriminate]|].
  rewrite bind_Ok.
  destruct (amount <? MIN_LOAN_AMOUNT cfg)%float eqn:Hmin;
    [unfold calculate_loan; cbn; rewrite Hmin; cbn; split; [reflexivity|discriminate]|].
  destruct (MAX_LOAN_AMOUNT cfg <? amount)%float eqn:Hmax;
    [unfold calculate_loan; cbn; rewrite Hmin, Hmax; cbn;
     split; [reflexivity|discriminate]|].
  assert (Hrange : tenure_in_range
            (or_int tenure_days (DEFAULT_LOAN_TENURE_DAYS cfg))).
  { rewrite (or_int_accepted cfg tenure_days Hten). exact Hten. }
  destruct (calculate_loan_in_range cfg
              {| LoanCalculateRequest.amount := amount;
                 LoanCalculateRequest.interest_rate := rate;
                 LoanCalculateRequest.tenure_days := tenure_days |}
              Hrange Hmin Hmax)
    as (months & days & _ & _ & ->).
  cbn. split; [reflexivity|eauto].
Qed.

(** The amount 1000 with the default settings: accepted. *)
Lemma calculate_loan_validates_amount_witness :
  let body := {|
    LoanCalculateRequest.amount := 1000;
    LoanCalculateRequest.interest_rate := Some 15%float;
    LoanCalculateRequest.tenure_days := Some 30 |} in
  is_number 1000 = true ∧ accepted_tenure settings (Some 30)
  ∧ validation_error (POST_loans_calculate settings body) = false
  ∧ (false = false → ∃ offer, POST_loans_calculate settings body = Ok offer).
Proof.
  assert (Hnum : is_number 1000 = true) by reflexivity.
  assert (Hten : accepted_tenure settings (Some 30)) by (split; reflexivity).
  split; [exact Hnum|]. split; [exact Hten|].
  exact (calculate_loan_validates_amount settings 1000 (Some 15%float)
           (Some 30) Hnum Hten).
Defined.

(** The example of the specification: 1000 at 15% over 30 days. *)
Lemma calculate_loan_example :
  POST_loans_calculate settings {|
    LoanCalculateRequest.amount := 1000;
    LoanCalculateRequest.interest_rate := Some 15%float;
    LoanCalculateRequest.tenure_days := Some 30 |}
  = Ok {|
    LoanCalculateResponse.amount := 1000;
    LoanCalculateResponse.interest_rate := 15;
    LoanCalculateResponse.tenure_days := 30;
    LoanCalculateResponse.interest_amount := 150;
    LoanCalculateResponse.total_repayment := 1150;
    LoanCalculateResponse.daily_interest := 5 |}.
Proof. vm_compute. reflexivity. Qed.

(** The same loan over 15 days: half the interest, the same daily
    interest. *)
Example calculate_loan_example_15_days :
  POST_loans_calculate settings {|
    LoanCalculateRequest.amount := 1000;
    LoanCalculateRequest.interest_rate := Some 15%float;
    LoanCalculateRequest.tenure_days := Some 15 |}
  = Ok {|
    LoanCalculateResponse.amount := 1000;
    LoanCalculateResponse.interest_rate := 15;
    LoanCalculateResponse.tenure_days := 15;
    LoanCalculateResponse.interest_amount := 75;
    LoanCalculateResponse.total_repayment := 1075;
    LoanCalculateResponse.daily_interest := 5 |}.
Proof. vm_compute. reflexivity. Qed.

(** A rate that is not zero is the rate of the offer. *)
Lemma or_float_truthy (r d : float) :
  float_truthy r = true → or_float (Some r) d = r.
Proof. intros H. unfold or_float. rewrite H. reflexivity. Qed.

(** A rate of zero is replaced by the configured default. *)
Lemma or_float_zero (d : float) : or_float (Some 0%float) d = d.
Proof. reflexivity. Qed.

(** C1. At a rate of zero the route does not compute [amount * rate/100 *
    (tenureDays/30)]: [request.interest_rate or DEFAULT_INTEREST_RATE]
    takes the zero for an absent rate, and the offer is the one at the
    default 15%, where the tool handler, which reads the rate with
    [args.get], returns the interest 0 of the formula. *)
Theorem calculate_loan_zero_rate :
  POST_loans_calculate settings {|
    LoanCalculateRequest.amount := 1000;
    LoanCalculateRequest.interest_rate := Some 0%float;
    LoanCalculateRequest.tenure_days := Some 30 |}
  = Ok {|
    LoanCalculateResponse.amount := 1000;
    LoanCalculateResponse.interest_rate := 15;
    LoanCalculateResponse.tenure_days := 30;
    LoanCalculateResponse.interest_amount := 150;
    LoanCalculateResponse.total_repayment := 1150;
    LoanCalculateResponse.daily_interest := 5 |}
  ∧ _calculate_loan settings (offer_args 1000 (Some 0%float) (Some 30%float))
    = Ok (OfferDict {|
        Offer.amount := JNum 1000;
        Offer.interest_rate := JNum 0;
        Offer.tenure_days := JNum 30;
        Offer.interest_amount := 0;
        Offer.total_repayment := 1000;
        Offer.daily_interest := 0 |}).
Proof. split; vm_compute; reflexivity. Qed.

Lemma out_of_range_rejected (cfg : Settings) (body : LoanCalculateRequest.t) :
  out_of_range cfg (LoanCalculateRequest.amount body) = true →
  validation_error (POST_loans_calculate cfg body) = true.
Proof.
  intros Hout. unfold POST_loans_calculate, LoanCalculateRequest.validate.
  assert (Hcalc : validation_error (calculate_loan cfg body) = true).
  { unfold calculate_loan. unfold out_of_range in Hout. rewrite Hout.
    reflexivity. }
  destruct (0 <? LoanCalculateRequest.amount body)%float; [|reflexivity].
  destruct (LoanCalculateRequest.tenure_days body) as [n|]; [|exact Hcalc].
  destruct (0 <? n); [exact Hcalc|reflexivity].
Qed.

Lemma number_fields_amount (amount : number) (rate tenure : option number) :
  number_fields amount rate tenure !! "amount" = Some (number_json amount).
Proof. apply lookup_insert_eq. Qed.

Lemma number_fields_interest_rate (amount : number)
    (rate tenure : option number) :
  number_fields amount rate tenure !! "interest_rate" = number_json <$> rate.
Proof. destruct rate, tenure; vm_compute; reflexivity. Qed.

Lemma number_fields_tenure_days (amount : number)
    (rate tenure : option number) :
  number_fields amount rate tenure !! "tenure_days" = number_json <$> tenure.
Proof. destruct rate, tenure; vm_compute; reflexivity. Qed.

Lemma as_number_json (v : number) : as_number (number_json v) = Some v.
Proof. destruct v; reflexivity. Qed.

Lemma operand_number (v : number) : operand (number_json v) = Ok v.
Proof. unfold operand. rewrite as_number_json. reflexivity. Qed.

Lemma py_mul_numbers (a b : number) :
  py_mul (number_json a) (number_json b) = (v ← number_mul a b; Ok (Number v)).
Proof. destruct a, b; reflexivity. Qed.

(** The arguments of the handler, once read from a call whose numbers are
    [amount], [rate] and [tenure]. *)
Lemma calculate_loan_numbers (cfg : Settings) (amount : number)
    (rate tenure : option number) :
  let r := default (Float (DEFAULT_INTEREST_RATE cfg)) rate in
  let t := default (Int (DEFAULT_LOAN_TENURE_DAYS cfg)) tenure in
  _calculate_loan cfg (number_args amount rate tenure)
  = (charge ← number_mul amount r;
     percent ← number_truediv_int charge 100;
     months ← number_truediv_int t 30;
     total_repayment ← number_add_float amount (percent * months)%float;
     daily_interest ← float_truediv_number (percent * months)%float t;
     Ok (OfferDict {|
       Offer.amount := number_json amount;
       Offer.interest_rate := number_json r;
       Offer.tenure_days := number_json t;
       Offer.interest_amount := py_round2 (percent * months)%float;
       Offer.total_repayment := py_round2 total_repayment;
       Offer.daily_interest := py_round2 daily_interest |})).
Proof.
  intros r t. unfold _calculate_loan, number_args.
  rewrite number_fields_amount, number_fields_interest_rate,
    number_fields_tenure_days.
  replace (default (JNum (DEFAULT_INTEREST_RATE cfg)) (number_json <$> rate))
    with (number_json r) by (subst r; destruct rate; reflexivity).
  replace (default (JInt (DEFAULT_LOAN_TENURE_DAYS cfg)) (number_json <$> tenure))
    with (number_json t) by (subst t; destruct tenure; reflexivity).
  rewrite py_mul_numbers, !operand_number.
  destruct (number_mul amount r) as [charge|e]; [|reflexivity].
  rewrite !bind_Ok. cbn [product_truediv_int].
  destruct (number_truediv_int charge 100) as [percent|e]; [|reflexivity].
  rewrite !bind_Ok. reflexivity.
Qed.

Lemma float_of_int_in_range (n : Z) :
  Z.abs n < DBL_OVERFLOW → ∃ x, float_of_int n = Ok x.
Proof.
  intros H. unfold float_of_int.
  destruct (Z.leb_spec DBL_OVERFLOW (Z.abs n)); [lia|]. eauto.
Qed.

Lemma int_truediv_in_range (a b : Z) :
  b ≠ 0 → Z.abs a < DBL_OVERFLOW * Z.abs b → ∃ x, int_truediv a b = Ok x.
Proof.
  intros Hb H. unfold int_truediv.
  destruct (Z.eqb_spec b 0); [contradiction|].
  destruct (Z.leb_spec (DBL_OVERFLOW * Z.abs b) (Z.abs a)); [lia|]. eauto.
Qed.

Lemma float_truediv_int_in_range (x : float) (n : Z) :
  n ≠ 0 → Z.abs n < DBL_OVERFLOW → ∃ y, float_truediv_int x n = Ok y.
Proof.
  intros Hn H. unfold float_truediv_int.
  destruct (Z.eqb_spec n 0); [contradiction|].
  destruct (float_of_int_in_range n H) as [y ->]. rewrite bind_Ok. eauto.
Qed.

(** [amount * rate / 100] on numbers within range. *)
Lemma percent_in_range (amount rate : number) :
  in_float_range amount = true → percent_in_float_range amount rate = true →
  ∃ charge percent,
    number_mul amount rate = Ok charge
    ∧ number_truediv_int charge 100 = Ok percent.
Proof.
  intros Ha Hp. pose proof DBL_OVERFLOW_pos as Hpos.
  destruct amount as [n|x], rate as [m|y];
    cbn [in_float_range percent_in_float_range] in Ha, Hp;
    cbn [number_mul].
  - apply Z.ltb_lt in Hp.
    destruct (int_truediv_in_range (n * m) 100) as [p Hdiv]; [lia|lia|].
    exists (Int (n * m)), p. split; [reflexivity|exact Hdiv].
  - apply Z.ltb_lt in Ha. destruct (float_of_int_in_range n Ha) as [x ->].
    rewrite bind_Ok.
    destruct (float_truediv_int_in_range (x * y)%float 100) as [p Hdiv];
      [lia|vm_compute; reflexivity|].
    exists (Float (x * y)%float), p. split; [reflexivity|exact Hdiv].
  - apply Z.ltb_lt in Hp. destruct (float_of_int_in_range m Hp) as [y ->].
    rewrite bind_Ok.
    destruct (float_truediv_int_in_range (x * y)%float 100) as [p Hdiv];
      [lia|vm_compute; reflexivity|].
    exists (Float (x * y)%float), p. split; [reflexivity|exact Hdiv].
  - destruct (float_truediv_int_in_range (x * y)%float 100) as [p Hdiv];
      [lia|vm_compute; reflexivity|].
    exists (Float (x * y)%float), p. split; [reflexivity|exact Hdiv].
Qed.

(** [tenure / 30] on a number within range. *)
Lemma months_in_range (tenure : number) :
  in_float_range tenure = true → ∃ months, number_truediv_int tenure 30 = Ok months.
Proof.
  intros Ht. pose proof DBL_OVERFLOW_pos as Hpos.
  destruct tenure as [n|x]; cbn [in_float_range number_truediv_int] in *.
  - apply Z.ltb_lt in Ht. apply int_truediv_in_range; lia.
  - apply float_truediv_int_in_range; [lia|vm_compute; reflexivity].
Qed.

(** [amount + x] on a number within range. *)
Lemma add_in_range (amount : number) (x : float) :
  in_float_range amount = true → ∃ total, number_add_float amount x = Ok total.
Proof.
  intros Ha. destruct amount as [n|a]; cbn [in_float_range number_add_float] in *.
  - apply Z.ltb_lt in Ha. destruct (float_of_int_in_range n Ha) as [a ->].
    rewrite bind_Ok. eauto.
  - eauto.
Qed.

(** [x / tenure] on a number within range: a zero divisor raises. *)
Lemma truediv_in_range (x : float) (tenure : number) :
  in_float_range tenure = true →
  if is_zero tenure then float_truediv_number x tenure = Raise ZeroDivisionError
  else ∃ daily, float_truediv_number x tenure = Ok daily.
Proof.
  intros Ht.
  destruct tenure as [n|t]; cbn [in_float_range is_zero float_truediv_number] in *.
  - apply Z.ltb_lt in Ht. unfold float_truediv_int.
    destruct (n =? 0); [reflexivity|].
    destruct (float_of_int_in_range n Ht) as [y ->]. rewrite bind_Ok. eauto.
  - unfold float_truediv. destruct (t =? 0)%float; eauto.
Qed.

Lemma bind_no_validation_error {A B} (x : Res A) (k : A → Res B) :
  validation_error x = false → (∀ a, validation_error (k a) = false) →
  validation_error (x ≫= k) = false.
Proof. intros Hx Hk. destruct x as [a|e]; [apply Hk|exact Hx]. Qed.

Lemma float_of_int_no_validation_error (n : Z) :
  validation_error (float_of_int n) = false.
Proof. unfold float_of_int. destruct (_ <=? _); reflexivity. Qed.

Lemma int_truediv_no_validation_error (a b : Z) :
  validation_error (int_truediv a b) = false.
Proof.
  unfold int_truediv. destruct (b =? 0); [reflexivity|].
  destruct (_ <=? _); reflexivity.
Qed.

Lemma float_truediv_int_no_validation_error (x : float) (n : Z) :
  validation_error (float_truediv_int x n) = false.
Proof.
  unfold float_truediv_int. destruct (n =? 0); [reflexivity|].
  apply bind_no_validation_error;
    [apply float_of_int_no_validation_error|reflexivity].
Qed.

Lemma number_truediv_int_no_validation_error (v : number) (k : Z) :
  validation_error (number_truediv_int v k) = false.
Proof.
  destruct v; [apply int_truediv_no_validation_error
              |apply float_truediv_int_no_validation_error].
Qed.

Lemma number_mul_no_validation_error {B} (a b : number) (k : number → Res B) :
  (∀ v, validation_error (k v) = false) →
  validation_error (number_mul a b ≫= k) = false.
Proof.
  intros Hk. destruct a as [n|x], b as [m|y]; cbn [number_mul]; try apply Hk.
  - destruct (float_of_int n) as [x|e] eqn:E; [rewrite bind_Ok; apply Hk|].
    pose proof (float_of_int_no_validation_error n) as H.
    rewrite E in H. exact H.
  - destruct (float_of_int m) as [y|e] eqn:E; [rewrite bind_Ok; apply Hk|].
    pose proof (float_of_int_no_validation_error m) as H.
    rewrite E in H. exact H.
Qed.

Lemma py_mul_no_validation_error {B} (a b : json) (k : product → Res B) :
  (∀ p, validation_error (k p) = false) →
  validation_error (py_mul a b ≫= k) = false.
Proof.
  intros Hk. unfold py_mul.
  assert (Hrep : ∀ seq n, validation_error (sequence_repeat seq n ≫= k) = false).
  { intros seq n. unfold sequence_repeat.
    destruct (negb _); [reflexivity|]. destruct (_ || _); [reflexivity|].
    destruct seq; try apply Hk. destruct (_ && _); [reflexivity|apply Hk]. }
  assert (Hnum : ∀ x y,
            validation_error ((number_mul x y ≫= λ v, Ok (Number v)) ≫= k)
            = false).
  { intros x y.
    pose proof (number_mul_no_validation_error x y (λ v, k (Number v))
                  (λ v, Hk (Number v))) as H.
    destruct (number_mul x y); exact H. }
  destruct (as_number a) as [[n|x]|], (as_number b) as [[m|y]|];
    try apply Hnum; try apply Hrep; reflexivity.
Qed.

(** The handler reports no invalid input, whatever its arguments. *)
Lemma calculate_loan_no_validation_error (cfg : Settings) (args : json) :
  validation_error (_calculate_loan cfg args) = false.
Proof.
  unfold _calculate_loan. destruct args as [| | | | | |d]; try reflexivity.
  destruct (d !! "amount") as [amount|]; [|reflexivity].
  apply py_mul_no_validation_error. intros p.
  apply bind_no_validation_error.
  { destruct p; [apply number_truediv_int_no_validation_error|reflexivity]. }
  intros percent. apply bind_no_validation_error.
  { unfold operand. destruct (as_number _); reflexivity. }
  intros tenure. apply bind_no_validation_error.
  { apply number_truediv_int_no_validation_error. }
  intros months. apply bind_no_validation_error.
  { unfold operand. destruct (as_number _); reflexivity. }
  intros principal. apply bind_no_validation_error.
  { destruct principal; cbn [number_add_float]; [|reflexivity].
    apply bind_no_validation_error;
      [apply float_of_int_no_validation_error|reflexivity]. }
  intros total. apply bind_no_validation_error; [|reflexivity].
  destruct tenure; cbn [float_truediv_number];
    [apply float_truediv_int_no_validation_error|].
  unfold float_truediv. destruct (_ =? _)%float; reflexivity.
Qed.

(** C9 as the program has it. The [calculate_loan_offer] handler checks
    no range. For every amount, whatever its sign or size, every rate and
    every tenure that is not zero, given or defaulted, it returns the
    offer that Python's arithmetic computes from them, provided the
    arithmetic stays within the range of [float]: an [int] amount or
    tenure converts to a [float], so does an [int] rate beside a [float]
    amount, and so does a hundredth of the exact product of an [int]
    amount and an [int] rate. Whatever its arguments, the handler reports
    no invalid input. The route rejects every amount outside
    [MIN_LOAN_AMOUNT, MAX_LOAN_AMOUNT]. *)
Theorem calculate_loan_offer_no_range_check (cfg : Settings) (amount : number)
    (interest_rate tenure_days : option number) :
  let r := default (Float (DEFAULT_INTEREST_RATE cfg)) interest_rate in
  let t := default (Int (DEFAULT_LOAN_TENURE_DAYS cfg)) tenure_days in
  in_float_range amount = true →
  percent_in_float_range amount r = true →
  in_float_range t = true →
  is_zero t = false →
  (∃ charge percent months total_repayment daily_interest,
     number_mul amount r = Ok charge
     ∧ number_truediv_int charge 100 = Ok percent
     ∧ number_truediv_int t 30 = Ok months
     ∧ number_add_float amount (percent * months)%float = Ok total_repayment
     ∧ float_truediv_number (percent * months)%float t = Ok daily_interest
     ∧ _calculate_loan cfg (number_args amount interest_rate tenure_days)
       = Ok (OfferDict {|
           Offer.amount := number_json amount;
           Offer.interest_rate := number_json r;
           Offer.tenure_days := number_json t;
           Offer.interest_amount := py_round2 (percent * months)%float;
           Offer.total_repayment := py_round2 total_repayment;
           Offer.daily_interest := py_round2 daily_interest |}))
  ∧ (∀ args, validation_error (_calculate_loan cfg args) = false)
  ∧ (∀ body,
       out_of_range cfg (LoanCalculateRequest.amount body) = true →
       validation_error (POST_loans_calculate cfg body) = true).
Proof.
  intros r t Ha Hp Ht Hnz. split; [|split].
  - destruct (percent_in_range amount r Ha Hp) as (charge & percent & Hc & Hpc).
    destruct (months_in_range t Ht) as [months Hm].
    destruct (add_in_range amount (percent * months)%float Ha) as [total Htot].
    pose proof (truediv_in_range (percent * months)%float t Ht) as Hd.
    rewrite Hnz in Hd. destruct Hd as [daily Hd].
    exists charge, percent, months, total, daily.
    repeat (split; [assumption|]).
    rewrite calculate_loan_numbers. fold r. fold t.
    rewrite Hc, bind_Ok, Hpc, bind_Ok, Hm, bind_Ok, Htot, bind_Ok, Hd, bind_Ok.
    reflexivity.
  - apply calculate_loan_no_validation_error.
  - intros body. apply out_of_range_rejected.
Qed.

(** An [int] amount of 5, far below [MIN_LOAN_AMOUNT], with the default
    rate and tenure: the offer is the one of the formula, and the route
    rejects the amount. *)
Lemma calculate_loan_offer_no_range_check_witness :
  in_float_range (Int 5) = true
  ∧ percent_in_float_range (Int 5) (Float (DEFAULT_INTEREST_RATE settings)) = true
  ∧ in_float_range (Int (DEFAULT_LOAN_TENURE_DAYS settings)) = true
  ∧ is_zero (Int (DEFAULT_LOAN_TENURE_DAYS settings)) = false
  ∧ _calculate_loan settings (number_args (Int 5) None None)
    = Ok (OfferDict {|
        Offer.amount := JInt 5;
        Offer.interest_rate := JNum 15;
        Offer.tenure_days := JInt 30;
        Offer.interest_amount := 0.75;
        Offer.total_repayment := 5.75;
        Offer.daily_interest := 0x1.eb851eb851eb8p-6 |})
  ∧ validation_error (_calculate_loan settings (number_args (Int 5) None None))
    = false
  ∧ validation_error
      (POST_loans_calculate settings {|
         LoanCalculateRequest.amount := 5;
         LoanCalculateRequest.interest_rate := None;
         LoanCalculateRequest.tenure_days := None |}) = true.
Proof.
  assert (H1 : in_float_range (Int 5) = true) by reflexivity.
  assert (H2 : percent_in_float_range (Int 5)
                 (Float (DEFAULT_INTEREST_RATE settings)) = true) by reflexivity.
  assert (H3 : in_float_range (Int (DEFAULT_LOAN_TENURE_DAYS settings)) = true)
    by reflexivity.
  assert (H4 : is_zero (Int (DEFAULT_LOAN_TENURE_DAYS settings)) = false)
    by reflexivity.
  repeat (split; [assumption|]).
  destruct (calculate_loan_offer_no_range_check settings (Int 5) None None
              H1 H2 H3 H4)
    as [(charge & percent & months & total & daily
         & Hc & Hp & Hm & Ht & Hd & Hoffer) [Hno Hroute]].
  split; [|split; [apply Hno|apply Hroute; reflexivity]].
  rewrite Hoffer.
  injection Hc as <-. injection Hp as <-. injection Hm as <-.
  injection Ht as <-. injection Hd as <-. reflexivity.
Defined.

(** C9 as the specification states it fails: an [int] amount of [10^400],
    with the default rate and tenure, is beyond the range of [float], and
    the handler raises [OverflowError] instead of returning an offer. *)
Lemma calculate_loan_offer_overflow :
  _calculate_loan settings (number_args (Int (10 ^ 400)) None None)
  = Raise OverflowError.
Proof. vm_compute. reflexivity. Qed.

(** The same call with [int] arguments throughout: the product of the
    amount and the rate is exact, and rounded once by the division. *)
Example calculate_loan_offer_ints :
  _calculate_loan settings
    (number_args (Int 35623) (Some (Int 1497806057043)) (Some (Int 30)))
  = Ok (OfferDict {|
      Offer.amount := JInt 35623;
      Offer.interest_rate := JInt 1497806057043;
      Offer.tenure_days := JInt 30;
      Offer.interest_amount := 533563451700427.875;
      Offer.total_repayment := 533563451736050.875;
      Offer.daily_interest := 0x1.02cff555d7e43p+44 |}).
Proof. vm_compute. reflexivity. Qed.

(* ===================================================================== *)
(** * Properties: the loan routes *)
(* ===================================================================== *)

Lemma with_loans_same (db : DB) : with_loans (loans db) db = db.
Proof. destruct db; reflexivity. Qed.

Lemma apply_id (p : Loan.patch) (l : Loan.t) :
  Loan.id (Loan.apply p l) = Loan.id l.
Proof. reflexivity. Qed.

(** The rows an update by id returns are the patched rows of that id. *)
Lemma filter_update_loans_by_id (p : Loan.patch) (loan_id : string)
    (ls : list Loan.t) :
  filter (λ l, Loan.id l = loan_id) (update_loans_by_id p loan_id ls)
  = Loan.apply p <$> filter (λ l, Loan.id l = loan_id) ls.
Proof.
  unfold update_loans_by_id.
  induction ls as [|l ls IH]; [reflexivity|].
  rewrite fmap_cons. destruct (decide (Loan.id l = loan_id)) as [Hid|Hid].
  - rewrite !filter_cons_True by (rewrite ?apply_id; exact Hid).
    rewrite fmap_cons, IH. reflexivity.
  - rewrite !filter_cons_False by exact Hid. exact IH.
Qed.

(** An update by an id that no row has changes nothing. *)
Lemma update_loans_by_id_none (p : Loan.patch) (loan_id : string)
    (ls : list Loan.t) :
  (∀ l, l ∈ ls → Loan.id l ≠ loan_id) → update_loans_by_id p loan_id ls = ls.
Proof.
  intros Hno. unfold update_loans_by_id.
  induction ls as [|l ls IH]; [reflexivity|].
  rewrite fmap_cons. rewrite decide_False by (apply Hno; left).
  f_equal. apply IH. intros l' Hl'. apply Hno. right. exact Hl'.
Qed.

(** An update by id patches every row of that id, wherever it is. *)
Lemma update_loans_by_id_elem (p : Loan.patch) (loan_id : string)
    (ls : list Loan.t) (l : Loan.t) :
  l ∈ ls → Loan.id l = loan_id → Loan.apply p l ∈ update_loans_by_id p loan_id ls.
Proof.
  intros Hl Hid. unfold update_loans_by_id.
  apply list_elem_of_fmap. exists l. rewrite decide_True by exact Hid. done.
Qed.

Lemma active_agent_or_admin (user : User.t) :
  User.status user = "active" →
  User.role user ∈ [UserRole_value AGENT; UserRole_value ADMIN] →
  (get_current_active_user user ≫= require_agent_or_admin) = Ok user.
Proof.
  intros Hst Hrole. unfold get_current_active_user.
  rewrite decide_False by (intros H; apply H; exact Hst).
  rewrite bind_Ok. unfold require_agent_or_admin.
  rewrite decide_False by (intros H; apply H; exact Hrole). reflexivity.
Qed.

(** C3 as the program has it. A request for a new status by an active
    agent or admin is not checked against the current status of the
    loan: it fails only when no loan has the id, with 404, and otherwise
    writes the requested status over whatever status the loan had,
    together with the approver and the approval time when that status is
    [approved]. *)
Theorem update_loan_status_unchecked (now : Z) (loan_id : string)
    (status_update : LoanUpdateStatus.t) (user : User.t) (db : DB) :
  User.status user = "active" →
  User.role user ∈ [UserRole_value AGENT; UserRole_value ADMIN] →
  let update_data := status_update_data now status_update user in
  PUT_loans_status now loan_id status_update user db
  = (match filter (λ l, Loan.id l = loan_id) (loans db) with
     | [] => Raise (HTTPException HTTP_404_NOT_FOUND (Text "Loan not found"))
     | l :: _ => Ok (Loan.apply update_data l)
     end,
     with_loans (update_loans_by_id update_data loan_id (loans db)) db)
  ∧ (∀ l, Loan.status (Loan.apply update_data l)
          = LoanStatus_value (LoanUpdateStatus.status status_update))
  ∧ (LoanUpdateStatus.status status_update = APPROVED →
     ∀ l, Loan.approved_by (Loan.apply update_data l) = Some (User.id user)
          ∧ Loan.approved_at (Loan.apply update_data l) = Some now).
Proof.
  intros Hst Hrole update_data. split; [|split].
  - unfold PUT_loans_status. rewrite (active_agent_or_admin user Hst Hrole).
    unfold update_loan_status. fold update_data. cbn [loans with_loans].
    rewrite filter_update_loans_by_id.
    destruct (filter (λ l, Loan.id l = loan_id) (loans db)); reflexivity.
  - intros l. reflexivity.
  - intros Happ l. subst update_data. unfold status_update_data.
    rewrite Happ. split; reflexivity.
Qed.

(** A completed loan, and an agent who asks for [approved]. *)
Lemma update_loan_status_unchecked_witness :
  let status_update := {|
    LoanUpdateStatus.status := APPROVED;
    LoanUpdateStatus.ai_decision := None;
    LoanUpdateStatus.ai_confidence := None |} in
  User.status agent_bob = "active"
  ∧ User.role agent_bob ∈ [UserRole_value AGENT; UserRole_value ADMIN]
  ∧ ∀ l, Loan.status
           (Loan.apply (status_update_data 7 status_update agent_bob) l)
         = "approved".
Proof.
  assert (Hst : User.status agent_bob = "active") by reflexivity.
  assert (Hrole : User.role agent_bob
                  ∈ [UserRole_value AGENT; UserRole_value ADMIN])
    by (apply list_elem_of_here).
  split; [exact Hst|]. split; [exact Hrole|].
  exact (proj1 (proj2 (update_loan_status_unchecked 7 "loan-1"
           {| LoanUpdateStatus.status := APPROVED;
              LoanUpdateStatus.ai_decision := None;
              LoanUpdateStatus.ai_confidence := None |}
           agent_bob (sample_db "completed") Hst Hrole))).
Defined.

(** C3 as the specification states it fails: the transition from
    [completed] to [approved] is carried out. *)
Lemma completed_to_approved_succeeds :
  let status_update := {|
    LoanUpdateStatus.status := APPROVED;
    LoanUpdateStatus.ai_decision := None;
    LoanUpdateStatus.ai_confidence := None |} in
  let result :=
    PUT_loans_status 7 "loan-1" status_update agent_bob (sample_db "completed") in
  (Loan.status <$> loans (sample_db "completed")) = ["completed"]
  ∧ (∃ row, result.1 = Ok row ∧ Loan.status row = "approved")
  ∧ (Loan.status <$> loans result.2) = ["approved"].
Proof.
  split; [reflexivity|]. split; [|vm_compute; reflexivity].
  eexists. split; vm_compute; reflexivity.
Qed.

(** C5. When no loan of the requested id is pending, [accept_loan], once
    its select is answered, fails with a client error (404 when the
    caller has no loan of that id, 400 otherwise) and leaves the store
    as it was: no status is written and no transaction is inserted. *)
Theorem accept_loan_not_pending (down : outage) (now : Z) (loan_id : string)
    (current_user : User.t) (db : DB) :
  down 0%nat = false →
  (∀ l, l ∈ loans db → Loan.id l = loan_id → Loan.status l ≠ "pending") →
  ∃ code d,
    accept_loan down now loan_id current_user db
    = (Raise (HTTPException code d), db)
    ∧ client_error code = true.
Proof.
  intros Hup Hnot. unfold accept_loan. rewrite Hup.
  destruct (filter _ (loans db)) as [|loan rest] eqn:Hsel.
  - eexists _, _. split; reflexivity.
  - assert (Hin : loan ∈ filter
        (λ l, Loan.id l = loan_id ∧ Loan.user_id l = User.id current_user)
        (loans db)) by (rewrite Hsel; left).
    apply list_elem_of_filter in Hin as [[Hid _] Hin].
    rewrite decide_True by (apply (Hnot loan Hin Hid)).
    eexists _, _. split; reflexivity.
Qed.

(** A completed loan is not accepted again. *)
Lemma accept_loan_not_pending_witness :
  no_outage 0%nat = false
  ∧ (∀ l, l ∈ loans (sample_db "completed") → Loan.id l = "loan-1" →
          Loan.status l ≠ "pending")
  ∧ ∃ code d,
      accept_loan no_outage 7 "loan-1" alice (sample_db "completed")
      = (Raise (HTTPException code d), sample_db "completed")
      ∧ client_error code = true.
Proof.
  assert (Hup : no_outage 0%nat = false) by reflexivity.
  assert (Hnot : ∀ l, l ∈ loans (sample_db "completed") →
                      Loan.id l = "loan-1" → Loan.status l ≠ "pending").
  { intros l Hl _. apply list_elem_of_singleton in Hl. subst l. discriminate. }
  split; [exact Hup|]. split; [exact Hnot|].
  exact (accept_loan_not_pending no_outage 7 "loan-1" alice
           (sample_db "completed") Hup Hnot).
Defined.

(** C2 as the program has it. For a pending loan of the caller, once the
    select and the update are answered, [accept_loan] writes [approved]
    and the approval time on the loan; when the insert is answered too,
    it appends exactly one transaction, a disbursement of the loan's
    amount with the loan's total repayment as balance, and returns the
    approved loan. The two writes are separate requests: when the insert
    fails, the update of the loan stays and there is no transaction. *)
Theorem accept_loan_pending (down : outage) (now : Z) (loan_id : string)
    (current_user : User.t) (db : DB) (loan : Loan.t) (others : list Loan.t) :
  filter (λ l, Loan.id l = loan_id ∧ Loan.user_id l = User.id current_user)
    (loans db) = loan :: others →
  Loan.status loan = "pending" →
  down 0%nat = false →
  down 1%nat = false →
  let approved := Loan.apply (acceptance_update_data now) loan in
  let db1 :=
    with_loans
      (update_loans_by_id (acceptance_update_data now) loan_id (loans db)) db in
  let tx := disbursement now loan_id current_user loan in
  approved ∈ loans db1
  ∧ Loan.status approved = "approved"
  ∧ Loan.approved_at approved = Some now
  ∧ Transaction.type tx = "disbursement"
  ∧ Transaction.amount tx = Loan.amount loan
  ∧ Transaction.balance_after tx = Loan.total_repayment loan
  ∧ transactions db1 = transactions db
  ∧ if down 2%nat
    then accept_loan down now loan_id current_user db = (Raise APIError, db1)
    else ∃ row,
      accept_loan down now loan_id current_user db
      = (Ok row, with_transactions (transactions db ++ [tx]) db1)
      ∧ Loan.status row = "approved".
Proof.
  intros Hsel Hpending Hup0 Hup1 approved db1 tx.
  assert (Hin : loan ∈ filter
      (λ l, Loan.id l = loan_id ∧ Loan.user_id l = User.id current_user)
      (loans db)) by (rewrite Hsel; left).
  apply list_elem_of_filter in Hin as [[Hid _] Hin].
  split; [exact (update_loans_by_id_elem _ _ _ _ Hin Hid)|].
  do 6 (split; [reflexivity|]).
  unfold accept_loan. rewrite Hup0, Hsel.
  rewrite decide_False by (intros H; apply H; exact Hpending).
  rewrite Hup1. fold db1. destruct (down 2%nat); [reflexivity|].
  cbn [loans with_loans db1 transactions].
  rewrite filter_update_loans_by_id.
  destruct (filter (λ l, Loan.id l = loan_id) (loans db)) as [|first rest] eqn:Hid'.
  - exfalso. eapply (filter_nil_not_elem_of _ _ loan Hid'); [exact Hid|exact Hin].
  - eexists. split; reflexivity.
Qed.

(** The pending sample loan, accepted by its owner, with the insert of
    the transaction failing. *)
Lemma accept_loan_pending_witness :
  let db1 :=
    with_loans
      (update_loans_by_id (acceptance_update_data 7) "loan-1"
         (loans (sample_db "pending")))
      (sample_db "pending") in
  insert_fails 0%nat = false ∧ insert_fails 1%nat = false
  ∧ accept_loan insert_fails 7 "loan-1" alice (sample_db "pending")
    = (Raise APIError, db1).
Proof.
  assert (Hsel : filter
            (λ l, Loan.id l = "loan-1" ∧ Loan.user_id l = User.id alice)
            (loans (sample_db "pending")) = [sample_loan "pending"])
    by reflexivity.
  assert (Hup0 : insert_fails 0%nat = false) by reflexivity.
  assert (Hup1 : insert_fails 1%nat = false) by reflexivity.
  split; [exact Hup0|]. split; [exact Hup1|].
  exact (proj2 (proj2 (proj2 (proj2 (proj2 (proj2 (proj2
           (accept_loan_pending insert_fails 7 "loan-1" alice
              (sample_db "pending") (sample_loan "pending") [] Hsel eq_refl
              Hup0 Hup1)))))))).
Defined.

(** C2 as the specification states it fails: with the insert failing
    between the two writes, the loan is approved in the store and no
    transaction exists, so neither both writes persist nor neither. *)
Lemma accept_loan_not_atomic :
  let result :=
    accept_loan insert_fails 7 "loan-1" alice (sample_db "pending") in
  (Loan.status <$> loans (sample_db "pending")) = ["pending"]
  ∧ result.1 = Raise APIError
  ∧ (Loan.status <$> loans result.2) = ["approved"]
  ∧ transactions result.2 = transactions (sample_db "pending").
Proof. repeat split; vm_compute; reflexivity. Qed.

(** The same acceptance with every request answered: the loan is
    approved and the one transaction is its disbursement. *)
Example accept_loan_sample :
  let result := accept_loan no_outage 7 "loan-1" alice (sample_db "pending") in
  (Loan.status <$> loans result.2) = ["approved"]
  ∧ (Loan.approved_at <$> loans result.2) = [Some 7]
  ∧ transactions result.2
    = [disbursement 7 "loan-1" alice (sample_loan "pending")]
  ∧ (Transaction.type <$> transactions result.2) = ["disbursement"].
Proof. repeat split; vm_compute; reflexivity. Qed.

Lemma selects_string (loan_id : string) (p : Loan.patch) (ls : list Loan.t) :
  (λ l, if selects (JStr loan_id) l then Loan.apply p l else l) <$> ls
  = update_loans_by_id p loan_id ls.
Proof.
  unfold update_loans_by_id. apply list_fmap_ext. intros _ l _. cbn.
  destruct (decide (Loan.id l = loan_id)) as [H|H].
  - rewrite bool_decide_eq_true_2 by exact H. reflexivity.
  - rewrite bool_decide_eq_false_2 by exact H. reflexivity.
Qed.

(** C10. [_store_acceptance] selects the loan by its id alone: it patches
    every row of that id, whatever the current status and the owner of
    the row and whoever calls, with [approved] and the time when
    [accepted] is true and with [rejected] and a null approval time when it is
    false, and returns [success] true, also when no row has the id, in
    which case the store is as before. *)
Theorem store_acceptance_unchecked (now : Z) (loan_id : string)
    (accepted : bool) (user_id : string) (db : DB) :
  let update_data := decision_update_data now accepted in
  let status := if accepted then "approved" else "rejected" in
  let loans' := update_loans_by_id update_data loan_id (loans db) in
  _store_acceptance now (acceptance_args loan_id accepted) user_id db
  = (Ok (AcceptanceDict true status), with_loans loans' db)
  ∧ (∀ l, l ∈ loans db → Loan.id l = loan_id →
          Loan.apply update_data l ∈ loans'
          ∧ Loan.status (Loan.apply update_data l) = status
          ∧ Loan.approved_at (Loan.apply update_data l)
            = (if accepted then Some now else None))
  ∧ ((∀ l, l ∈ loans db → Loan.id l ≠ loan_id) → with_loans loans' db = db).
Proof.
  intros update_data status loans'. split; [|split].
  - unfold _store_acceptance, acceptance_args.
    rewrite lookup_insert_eq, lookup_insert_ne by discriminate.
    rewrite lookup_singleton_eq. cbn [truthy].
    rewrite selects_string. reflexivity.
  - intros l Hin Hid. split; [|split].
    + exact (update_loans_by_id_elem _ _ _ _ Hin Hid).
    + reflexivity.
    + reflexivity.
  - intros Hno. subst loans'. rewrite update_loans_by_id_none by exact Hno.
    apply with_loans_same.
Qed.

(** A loan of alice that is completed, accepted through the tool on
    behalf of another user: the row is approved all the same. *)
Example store_acceptance_foreign_completed :
  let result :=
    _store_acceptance 7 (acceptance_args "loan-1" true) "mallory"
      (sample_db "completed") in
  result.1 = Ok (AcceptanceDict true "approved")
  ∧ (Loan.status <$> loans result.2) = ["approved"]
  ∧ (Loan.approved_at <$> loans result.2) = [Some 7].
Proof. repeat split; vm_compute; reflexivity. Qed.

(* ===================================================================== *)
(** * Properties: conversation threads *)
(* ===================================================================== *)

(** ** Sorting by [created_at] *)

Lemma insert_desc_perm {A} (key : A → Z) (x : A) (l : list A) :
  insert_desc key x l ≡ₚ x :: l.
Proof.
  induction l as [|y l IH]; [reflexivity|]. cbn.
  destruct (key y <=? key x); [reflexivity|].
  rewrite IH. apply Permutation_swap.
Qed.

Lemma order_desc_perm {A} (key : A → Z) (l : list A) :
  order_desc key l ≡ₚ l.
Proof.
  induction l as [|x l IH]; [reflexivity|].
  change (order_desc key (x :: l)) with (insert_desc key x (order_desc key l)).
  rewrite insert_desc_perm, IH. reflexivity.
Qed.

Lemma insert_desc_sorted {A} (key : A → Z) (x : A) (l : list A) :
  StronglySorted (λ a b, key b ≤ key a) l →
  StronglySorted (λ a b, key b ≤ key a) (insert_desc key x l).
Proof.
  induction 1 as [|y l Hsorted IH Hall]; cbn.
  - repeat constructor.
  - destruct (Z.leb_spec (key y) (key x)) as [Hle|Hgt].
    + constructor; [by constructor|].
      constructor; [exact Hle|].
      eapply Forall_impl; [exact Hall|]. cbn. intros; lia.
    + constructor; [exact IH|].
      rewrite insert_desc_perm. constructor; [lia|exact Hall].
Qed.

Lemma order_desc_sorted {A} (key : A → Z) (l : list A) :
  StronglySorted (λ a b, key b ≤ key a) (order_desc key l).
Proof.
  induction l as [|x l IH]; [constructor|].
  change (order_desc key (x :: l)) with (insert_desc key x (order_desc key l)).
  by apply insert_desc_sorted.
Qed.

Lemma sorted_newest_first {A} (key : A → Z) (l : list A) :
  StronglySorted (λ a b, key b ≤ key a) l → newest_first key l.
Proof.
  induction 1 as [|x l Hsorted IH Hall]; intros i j a b Hij Hi Hj.
  - by rewrite lookup_nil in Hi.
  - destruct j as [|j]; [lia|]. destruct i as [|i]; cbn in Hi, Hj.
    + injection Hi as <-. rewrite Forall_lookup in Hall. exact (Hall j b Hj).
    + apply (IH i j a b); [lia|done..].
Qed.

Lemma order_desc_newest_first {A} (key : A → Z) (l : list A) :
  newest_first key (order_desc key l).
Proof. apply sorted_newest_first, order_desc_sorted. Qed.

Lemma newest_first_take {A} (key : A → Z) (n : nat) (l : list A) :
  newest_first key l → newest_first key (take n l).
Proof.
  intros Hl i j a b Hij Hi Hj.
  apply lookup_take_Some in Hi as [Hi _]. apply lookup_take_Some in Hj as [Hj _].
  exact (Hl i j a b Hij Hi Hj).
Qed.

(** What [.limit(n)] cuts off a newest-first list is no newer than what
    it keeps. *)
Lemma newest_first_cut {A} (key : A → Z) (n : nat) (l : list A) (a b : A) :
  newest_first key l → a ∈ take n l → b ∈ drop n l → key b ≤ key a.
Proof.
  intros Hl Ha Hb.
  apply list_elem_of_lookup in Ha as [i Hi]. apply list_elem_of_lookup in Hb as [k Hk].
  apply lookup_take_Some in Hi as [Hi Hin]. rewrite lookup_drop in Hk.
  apply (Hl i (n + k)%nat a b); [lia|done..].
Qed.

Lemma insert_desc_not_nil {A} (key : A → Z) (x : A) (l : list A) :
  insert_desc key x l ≠ [].
Proof. destruct l as [|y l]; cbn; [|destruct (key y <=? key x)]; discriminate. Qed.

(** The newest row of a selection exists as soon as the selection is not
    empty. *)
Lemma take_order_desc_nil {A} (key : A → Z) (l : list A) :
  take 1 (order_desc key l) = [] → l = [].
Proof.
  destruct l as [|x l]; [reflexivity|].
  change (order_desc key (x :: l)) with (insert_desc key x (order_desc key l)).
  pose proof (insert_desc_not_nil key x (order_desc key l)) as Hne.
  destruct (insert_desc key x (order_desc key l)); [done|].
  cbn. discriminate.
Qed.

(** The lookup of [get_or_create_thread]: the user's newest active
    thread. *)
Lemma get_or_create_thread_found (thread_id : string) (g : Generated)
    (user_id : string) (db : DB) (row : Thread.t) (older : list Thread.t) :
  take 1
    (order_desc Thread.created_at
       (filter (λ t, Thread.user_id t = user_id ∧ Thread.status t = "active")
          (conversation_threads db))) = row :: older →
  get_or_create_thread thread_id g user_id db
  = (Ok (Thread.openai_thread_id row), db).
Proof. intros Hfound. unfold get_or_create_thread. rewrite Hfound. done. Qed.

(** Without an active thread of the user, the thread of the hosted
    assistant is recorded as the user's active thread. *)
Lemma get_or_create_thread_created (thread_id : string) (g : Generated)
    (user_id : string) (db : DB) :
  filter (λ t, Thread.user_id t = user_id ∧ Thread.status t = "active")
    (conversation_threads db) = [] →
  get_or_create_thread thread_id g user_id db
  = (Ok thread_id,
     with_conversation_threads
       (conversation_threads db ++
          [{| Thread.id := uuid g; Thread.user_id := user_id;
              Thread.openai_thread_id := thread_id;
              Thread.status := "active"; Thread.created_at := now g |}])
       db).
Proof. intros Hnone. unfold get_or_create_thread. rewrite Hnone. done. Qed.

(** The row that [.order("created_at", desc=True).limit(1)] returns is
    the only one returned, it is a row of the selection, and no row of the
    selection is newer. *)
Lemma take_order_desc_newest {A} (key : A → Z) (l : list A) (row : A)
    (older : list A) :
  take 1 (order_desc key l) = row :: older →
  older = [] ∧ row ∈ l ∧ ∀ other, other ∈ l → key other ≤ key row.
Proof.
  intros Htake.
  pose proof (order_desc_perm key l) as Hperm.
  pose proof (order_desc_newest_first key l) as Hnewest.
  destruct (order_desc key l) as [|newest rest]; [discriminate|].
  cbn in Htake. injection Htake as -> <-.
  split; [reflexivity|]. split.
  - rewrite <- Hperm. left.
  - intros other Hother. rewrite <- Hperm in Hother.
    apply elem_of_cons in Hother as [->|Hother]; [lia|].
    apply list_elem_of_lookup in Hother as [j Hj].
    apply (Hnewest 0%nat (S j) row other); [lia|reflexivity|exact Hj].
Qed.

(** C8. Two calls of [get_or_create_thread] for one user, one after the
    other, return the same handle, and it is the handle of a stored
    thread: after the first call the store holds a thread of this user
    with status active, the newest of the user's active threads, which is
    what the lookup of the second call returns; both calls return its
    handle, and the second call writes nothing. When the user had no
    active thread, that thread is the one the first call stored, with the
    handle of the assistant's new thread; otherwise the first call wrote
    nothing either. *)
Theorem get_or_create_thread_twice (thread_id1 thread_id2 : string)
    (g1 g2 : Generated) (user_id : string) (db : DB) :
  let first := get_or_create_thread thread_id1 g1 user_id db in
  let second := get_or_create_thread thread_id2 g2 user_id first.2 in
  let created := {|
    Thread.id := uuid g1; Thread.user_id := user_id;
    Thread.openai_thread_id := thread_id1;
    Thread.status := "active"; Thread.created_at := now g1 |} in
  ∃ row,
    first.1 = Ok (Thread.openai_thread_id row)
    ∧ second.1 = Ok (Thread.openai_thread_id row)
    ∧ second.2 = first.2
    ∧ take 1 (order_desc Thread.created_at (active_threads user_id first.2))
      = [row]
    ∧ row ∈ conversation_threads first.2
    ∧ Thread.user_id row = user_id
    ∧ Thread.status row = "active"
    ∧ (∀ other, other ∈ active_threads user_id first.2 →
         Thread.created_at other ≤ Thread.created_at row)
    ∧ match active_threads user_id db with
      | [] =>
          row = created
          ∧ first.2
            = with_conversation_threads (conversation_threads db ++ [created]) db
      | _ :: _ => first.2 = db
      end.
Proof.
  cbv zeta.
  destruct (take 1 (order_desc Thread.created_at (active_threads user_id db)))
    as [|row older] eqn:Hfound.
  - apply take_order_desc_nil in Hfound.
    rewrite (get_or_create_thread_created thread_id1 g1 user_id db Hfound).
    cbn [fst snd].
    set (created := {|
      Thread.id := uuid g1; Thread.user_id := user_id;
      Thread.openai_thread_id := thread_id1;
      Thread.status := "active"; Thread.created_at := now g1 |}).
    set (db1 := with_conversation_threads (conversation_threads db ++ [created]) db).
    assert (Hactive : active_threads user_id db1 = [created]).
    { unfold active_threads, db1.
      cbn [conversation_threads with_conversation_threads].
      unfold active_threads in Hfound.
      rewrite filter_app, Hfound, app_nil_l.
      rewrite filter_cons_True by (split; reflexivity).
      reflexivity. }
    exists created.
    rewrite (get_or_create_thread_found thread_id2 g2 user_id db1 created [])
      by (fold (active_threads user_id db1); rewrite Hactive; reflexivity).
    rewrite Hactive, Hfound.
    repeat split.
    + unfold db1. cbn [conversation_threads with_conversation_threads].
      apply elem_of_app. right. left.
    + intros other Hother. apply list_elem_of_singleton in Hother as ->. lia.
  - pose proof (take_order_desc_newest _ _ _ _ Hfound)
      as (-> & Hrow & Hnewest).
    rewrite (get_or_create_thread_found thread_id1 g1 user_id db row [] Hfound).
    cbn [fst snd].
    rewrite (get_or_create_thread_found thread_id2 g2 user_id db row [] Hfound).
    apply list_elem_of_filter in Hrow as [[Huser Hstatus] Hin].
    exists row. rewrite Hfound.
    repeat split; try done.
    destruct (active_threads user_id db) eqn:Hnone; [|reflexivity].
    discriminate.
Qed.

(** A user without a thread is given the new thread, not the newest
    thread of the table, which is another user's. *)
Example get_or_create_thread_of_user :
  get_or_create_thread "thread_new" {| uuid := "t-2"; now := 60 |} "mallory"
    chat_db
  = (Ok "thread_new",
     with_conversation_threads
       (conversation_threads chat_db ++
          [{| Thread.id := "t-2"; Thread.user_id := "mallory";
              Thread.openai_thread_id := "thread_new";
              Thread.status := "active"; Thread.created_at := 60 |}])
       chat_db).
Proof. vm_compute. reflexivity. Qed.

(* ===================================================================== *)
(** * Properties: the tool dispatcher and the run loop *)
(* ===================================================================== *)

Section dispatch.

Context (upsert : gmap string json → list (gmap string json)
                  → list (gmap string json)).
Context (cfg : Settings).

Lemma store_acceptance_messages (now : Z) (args : json) (user_id : string)
    (db : DB) :
  messages (_store_acceptance now args user_id db).2 = messages db.
Proof.
  unfold _store_acceptance. destruct args; try reflexivity.
  destruct (fields !! "loan_id"); [|reflexivity].
  destruct (fields !! "accepted"); reflexivity.
Qed.

Lemma complete_onboarding_messages (args : json) (db : DB) :
  messages (_complete_onboarding upsert args db).2 = messages db.
Proof.
  unfold _complete_onboarding. destruct args; try reflexivity.
  destruct (fields !! "user_id"); [|reflexivity].
  destruct (fields !! "profile_data") as [[]|]; reflexivity.
Qed.

(** No tool handler writes to [messages]. *)
Lemma execute_function_messages (now : Z) (function_name : string)
    (arguments : json) (user_id : string) (db : DB) :
  messages (_execute_function upsert cfg now function_name arguments user_id db).2
  = messages db.
Proof.
  unfold _execute_function.
  repeat (case_decide; [first [reflexivity
                              | apply store_acceptance_messages
                              | apply complete_onboarding_messages]|]).
  reflexivity.
Qed.

Lemma handle_each_messages (now : Z) (user_id : string)
    (tool_calls : list ToolCall.t) :
  ∀ (tool_outputs : list ToolOutput.t) (db : DB),
    messages (handle_each upsert cfg now user_id tool_outputs tool_calls db).2
    = messages db.
Proof.
  induction tool_calls as [|tool_call rest IH]; intros tool_outputs db;
    [reflexivity|].
  cbn [handle_each]. destruct (ToolCall.arguments tool_call) as [arguments|];
    [|reflexivity].
  pose proof (execute_function_messages now (ToolCall.name tool_call)
                arguments user_id db) as Hexec.
  destruct (_execute_function upsert cfg now (ToolCall.name tool_call)
              arguments user_id db) as [[result|e] db'].
  - rewrite IH. exact Hexec.
  - exact Hexec.
Qed.

(** Waiting for the run writes no message. *)
Lemma wait_for_completion_messages (now : Z) (user_id : string)
    (polls : list Run.t) :
  ∀ db : DB,
    messages (wait_for_completion upsert cfg now user_id polls db).2
    = messages db.
Proof.
  induction polls as [|run_status later IH]; intros db; [reflexivity|].
  cbn [wait_for_completion].
  case_decide; [reflexivity|]. case_decide.
  - unfold _handle_tool_calls.
    pose proof (handle_each_messages now user_id (Run.tool_calls run_status)
                  [] db) as Hh.
    destruct (handle_each upsert cfg now user_id [] (Run.tool_calls run_status) db)
      as [[tool_outputs|e] db'].
    + rewrite IH. exact Hh.
    + exact Hh.
  - case_decide; [reflexivity|]. apply IH.
Qed.

(** Polls that leave the loop running are followed by the later ones. *)
Lemma wait_for_completion_app (now : Z) (user_id : string)
    (before later : list Run.t) :
  ∀ db : DB,
    (wait_for_completion upsert cfg now user_id before db).1 = Polling →
    wait_for_completion upsert cfg now user_id (before ++ later) db
    = wait_for_completion upsert cfg now user_id later
        (wait_for_completion upsert cfg now user_id before db).2.
Proof.
  induction before as [|run_status before IH]; intros db; [reflexivity|].
  cbn [wait_for_completion app].
  case_decide; [discriminate|]. case_decide.
  - destruct (_handle_tool_calls upsert cfg now (Run.tool_calls run_status)
                user_id db) as [[tool_outputs|e] db']; [apply IH|discriminate].
  - case_decide; [discriminate|]. apply IH.
Qed.

Lemma store_user_message_assistant_rows (thread_id message : string) (db : DB) :
  filter (λ m, Message.role m = "assistant")
    (messages (_store_message thread_id "user" message db))
  = filter (λ m, Message.role m = "assistant") (messages db).
Proof.
  unfold _store_message.
  destruct (filter _ (conversation_threads db)); [reflexivity|].
  cbn [messages with_messages]. rewrite filter_app.
  rewrite filter_cons_False by discriminate.
  rewrite filter_nil. apply app_nil_r.
Qed.

(** The three statuses of a failed run are neither [completed] nor
    [requires_action]. *)
Lemma terminal_status_distinct (status : string) :
  status ∈ ["failed"; "cancelled"; "expired"] →
  status ≠ "completed" ∧ status ≠ "requires_action".
Proof.
  intros H. repeat (apply elem_of_cons in H as [->|H]);
    [split; discriminate..|].
  by apply elem_of_nil in H.
Qed.

(** C6. When the polls of a turn leave the loop running until one
    answers with the status [failed], [cancelled] or [expired],
    [send_message] raises an exception whose message carries that
    status, and the turn stores no assistant message: the messages are
    those after the user's message was stored. *)
Theorem send_message_run_failed (now : Z) (assistant : Assistant.t)
    (thread_id message user_id : string) (db : DB)
    (before later : list Run.t) (terminal : Run.t) :
  Assistant.polls assistant = before ++ terminal :: later →
  Run.status terminal ∈ ["failed"; "cancelled"; "expired"] →
  (wait_for_completion upsert cfg now user_id before
     (_store_message thread_id "user" message db)).1 = Polling →
  ∃ db',
    send_message upsert cfg now assistant thread_id message user_id db
    = (Raised (Exception ("Run failed with status: " +:+ Run.status terminal)),
       db')
    ∧ messages db' = messages (_store_message thread_id "user" message db)
    ∧ filter (λ m, Message.role m = "assistant") (messages db')
      = filter (λ m, Message.role m = "assistant") (messages db).
Proof.
  intros Hpolls Hterminal Hbefore.
  exists (wait_for_completion upsert cfg now user_id before
            (_store_message thread_id "user" message db)).2.
  assert (Hmsgs : messages
            (wait_for_completion upsert cfg now user_id before
               (_store_message thread_id "user" message db)).2
          = messages (_store_message thread_id "user" message db))
    by apply wait_for_completion_messages.
  split; [|split; [exact Hmsgs|]].
  - unfold send_message. rewrite Hpolls.
    rewrite (wait_for_completion_app now user_id before (terminal :: later) _
               Hbefore).
    cbn [wait_for_completion].
    destruct (terminal_status_distinct _ Hterminal) as [Hc Hr].
    rewrite (decide_False _ _ Hc), (decide_False _ _ Hr).
    rewrite decide_True by exact Hterminal. reflexivity.
  - rewrite Hmsgs. apply store_user_message_assistant_rows.
Qed.

(** C7. A function name that is none of the four known ones makes the
    dispatcher return [{"error": "Unknown function"}] and write nothing;
    it raises nothing, so the loop over the tool calls records this
    output and goes on with the next call, and the run loop goes on with
    the next poll. *)
Theorem unknown_function_error (now : Z) (function_name : string)
    (arguments : json) (user_id : string) (db : DB) :
  function_name ∉ known_functions →
  _execute_function upsert cfg now function_name arguments user_id db
  = (Ok (ErrorDict "Unknown function"), db)
  ∧ (∀ (id : string) (tool_outputs : list ToolOutput.t)
       (rest : list ToolCall.t),
       handle_each upsert cfg now user_id tool_outputs
         ({| ToolCall.id := id; ToolCall.name := function_name;
             ToolCall.arguments := Some arguments |} :: rest) db
       = handle_each upsert cfg now user_id
           (tool_outputs ++
              [{| ToolOutput.tool_call_id := id;
                  ToolOutput.output := ErrorDict "Unknown function" |}])
           rest db)
  ∧ (∀ (id : string) (later : list Run.t),
       wait_for_completion upsert cfg now user_id
         ({| Run.status := "requires_action";
             Run.tool_calls :=
               [{| ToolCall.id := id; ToolCall.name := function_name;
                   ToolCall.arguments := Some arguments |}] |} :: later) db
       = wait_for_completion upsert cfg now user_id later db).
Proof.
  intros Hunknown.
  assert (Hexec : _execute_function upsert cfg now function_name arguments
                    user_id db = (Ok (ErrorDict "Unknown function"), db)).
  { unfold _execute_function, known_functions in *.
    repeat (rewrite decide_False
              by (intros ->; apply Hunknown;
                  repeat first [apply list_elem_of_here
                               | apply list_elem_of_further])).
    reflexivity. }
  split; [exact Hexec|]. split.
  - intros id tool_outputs rest. cbn [handle_each ToolCall.arguments ToolCall.name
      ToolCall.id]. rewrite Hexec. reflexivity.
  - intros id later. cbn [wait_for_completion Run.status Run.tool_calls].
    rewrite decide_False by discriminate.
    rewrite decide_True by reflexivity.
    unfold _handle_tool_calls.
    cbn [handle_each ToolCall.arguments ToolCall.name ToolCall.id].
    rewrite Hexec. reflexivity.
Qed.

End dispatch.

(** A run that fails at its third poll. *)
Lemma send_message_run_failed_witness :
  let db0 := _store_message "thread_abc" "user" "I need a loan" chat_db in
  Assistant.polls failing_assistant
  = take 2 (Assistant.polls failing_assistant)
    ++ poll "failed" :: [poll "completed"]
  ∧ Run.status (poll "failed") ∈ ["failed"; "cancelled"; "expired"]
  ∧ (wait_for_completion upsert_append settings 7 "alice"
       (take 2 (Assistant.polls failing_assistant)) db0).1 = Polling
  ∧ ∃ db',
      send_message upsert_append settings 7 failing_assistant "thread_abc"
        "I need a loan" "alice" chat_db
      = (Raised (Exception ("Run failed with status: "
                            +:+ Run.status (poll "failed"))), db')
      ∧ messages db' = messages db0
      ∧ filter (λ m, Message.role m = "assistant") (messages db')
        = filter (λ m, Message.role m = "assistant") (messages chat_db).
Proof.
  assert (Hpolls : Assistant.polls failing_assistant
                   = take 2 (Assistant.polls failing_assistant)
                     ++ poll "failed" :: [poll "completed"]) by reflexivity.
  assert (Hterminal : Run.status (poll "failed")
                      ∈ ["failed"; "cancelled"; "expired"])
    by apply list_elem_of_here.
  assert (Hbefore : (wait_for_completion upsert_append settings 7 "alice"
                       (take 2 (Assistant.polls failing_assistant))
                       (_store_message "thread_abc" "user" "I need a loan"
                          chat_db)).1 = Polling)
    by (vm_compute; reflexivity).
  split; [exact Hpolls|]. split; [exact Hterminal|]. split; [exact Hbefore|].
  exact (send_message_run_failed upsert_append settings 7 failing_assistant
           "thread_abc" "I need a loan" "alice" chat_db
           (take 2 (Assistant.polls failing_assistant)) [poll "completed"]
           (poll "failed") Hpolls Hterminal Hbefore).
Defined.

(** The name [transfer_funds] is not a known one. *)
Lemma unknown_function_error_witness :
("transfer_funds" ∉ known_functions)
  ∧ _execute_function upsert_append settings 7 "transfer_funds" (JObj ∅)
      "alice" chat_db
    = (Ok (ErrorDict "Unknown function"), chat_db).
Proof.
  assert (Hunknown : "transfer_funds" ∉ known_functions).
  { intros H. unfold known_functions in H.
    repeat (apply elem_of_cons in H as [H|H]; [discriminate|]).
    by apply elem_of_nil in H. }
  split; [exact Hunknown|].
  exact (proj1 (unknown_function_error upsert_append settings 7
                  "transfer_funds" (JObj ∅) "alice" chat_db Hunknown)).
Defined.

(** The whole turn of the sample run, evaluated: the unknown tool call
    does not end the run, the failure does, and the only new message is
    the user's. *)
Example failing_turn :
  let result :=
    send_message upsert_append settings 7 failing_assistant "thread_abc"
      "I need a loan" "alice" chat_db in
  result.1 = Raised (Exception "Run failed with status: failed")
  ∧ (Message.role <$> messages result.2) = ["assistant"; "user"]
  ∧ loans result.2 = loans chat_db.
Proof. repeat split; vm_compute; reflexivity. Qed.

(* ===================================================================== *)
(** * Further properties: the loan routes *)
(* ===================================================================== *)

(** X1. [create_loan] never stores a loan: whatever the request, the user
    and the store, it raises and leaves the store as it was. When the
    calculation rejects the amount it raises that error; when the
    calculation succeeds it raises [AttributeError], reading
    [calc_result.interest_rate] off the dictionary [calculate_loan]
    returned, before the insert is reached. *)
Theorem create_loan_never_inserts (cfg : Settings) (g : Generated)
    (request : LoanCreateRequest.t) (current_user : User.t) (db : DB) :
  let calc_result :=
    LoanCalculateRequest.validate {|
      LoanCalculateRequest.amount := LoanCreateRequest.amount request;
      LoanCalculateRequest.interest_rate :=
        LoanCreateRequest.interest_rate request;
      LoanCalculateRequest.tenure_days := LoanCreateRequest.tenure_days request
    |} ≫= calculate_loan cfg in
  create_loan cfg g request current_user db
  = (Raise match calc_result with
           | Raise e => e
           | Ok _ => AttributeError
           end, db)
  ∧ ∃ e, POST_loans cfg g request current_user db = (Raise e, db).
Proof.
  intros calc_result.
  assert (Hcreate : create_loan cfg g request current_user db
                    = (Raise match calc_result with
                             | Raise e => e
                             | Ok _ => AttributeError
                             end, db)).
  { unfold create_loan. fold calc_result. destruct calc_result; reflexivity. }
  split; [exact Hcreate|].
  unfold POST_loans.
  destruct (LoanCreateRequest.validate request) as [r|e] eqn:Hval; [|eauto].
  assert (r = request) as ->.
  { unfold LoanCreateRequest.validate in Hval.
    destruct (_ ++ _); congruence. }
  destruct (get_current_active_user current_user) as [u|e] eqn:Hu; [|eauto].
  assert (u = current_user) as ->.
  { unfold get_current_active_user in Hu. case_decide; congruence. }
  rewrite Hcreate. eauto.
Qed.

(** An in-range request of an active customer: the calculation succeeds
    and the route fails on the attribute. *)
Example create_loan_sample :
  POST_loans settings {| uuid := "loan-2"; now := 200 |}
    {| LoanCreateRequest.amount := 2000;
       LoanCreateRequest.interest_rate := None;
       LoanCreateRequest.tenure_days := Some 30;
       LoanCreateRequest.ai_decision := None;
       LoanCreateRequest.ai_confidence := None |}
    alice (sample_db "pending")
  = (Raise AttributeError, sample_db "pending").
Proof. vm_compute. reflexivity. Qed.

(** X2. [get_user_loans] returns the loans of the caller, all of them and
    no other, each as often as the table holds it, newest first. *)
Theorem get_user_loans_own_newest_first (current_user : User.t) (db : DB) :
  get_user_loans current_user db ≡ₚ loans_of (User.id current_user) db
  ∧ (∀ l, l ∈ get_user_loans current_user db
          ↔ l ∈ loans db ∧ Loan.user_id l = User.id current_user)
  ∧ newest_first Loan.created_at (get_user_loans current_user db).
Proof.
  unfold get_user_loans, loans_of. split; [apply order_desc_perm|]. split.
  - intros l. rewrite order_desc_perm, list_elem_of_filter. tauto.
  - apply order_desc_newest_first.
Qed.

(** X3. [get_loan] shows a loan only to its owner or to an agent or
    admin: a loan it returns has the requested id, is in the table, and
    either belongs to the caller or the caller's role is [admin] or
    [agent]. *)
Theorem get_loan_authorized (loan_id : string) (current_user : User.t)
    (db : DB) (loan : Loan.t) :
  get_loan loan_id current_user db = Ok loan →
  loan ∈ loans db ∧ Loan.id loan = loan_id
  ∧ (Loan.user_id loan = User.id current_user
     ∨ User.role current_user ∈ ["admin"; "agent"]).
Proof.
  unfold get_loan.
  destruct (filter _ (loans db)) as [|first rest] eqn:Hsel; [discriminate|].
  assert (Hin : first ∈ filter (λ l, Loan.id l = loan_id) (loans db))
    by (rewrite Hsel; left).
  apply list_elem_of_filter in Hin as [Hid Hin].
  case_decide as Hdeny; [discriminate|]. intros [= <-].
  split; [exact Hin|]. split; [exact Hid|].
  destruct (decide (Loan.user_id first = User.id current_user)); [by left|].
  destruct (decide (User.role current_user ∈ ["admin"; "agent"])); [by right|].
  exfalso. apply Hdeny. done.
Qed.

(** The agent reads the loan of alice. *)
Lemma get_loan_authorized_witness :
  get_loan "loan-1" agent_bob (sample_db "pending") = Ok (sample_loan "pending")
  ∧ sample_loan "pending" ∈ loans (sample_db "pending")
  ∧ Loan.id (sample_loan "pending") = "loan-1"
  ∧ (Loan.user_id (sample_loan "pending") = User.id agent_bob
     ∨ User.role agent_bob ∈ ["admin"; "agent"]).
Proof.
  assert (H : get_loan "loan-1" agent_bob (sample_db "pending")
              = Ok (sample_loan "pending")) by (vm_compute; reflexivity).
  split; [exact H|].
  exact (get_loan_authorized "loan-1" agent_bob (sample_db "pending")
           (sample_loan "pending") H).
Defined.

(** X4. A caller who is neither the owner of the first loan with the
    requested id nor an agent or admin gets 403 from [get_loan], and 404
    when no loan has the id. *)
Theorem get_loan_denied (loan_id : string) (current_user : User.t) (db : DB) :
  User.role current_user ∉ ["admin"; "agent"] →
  (∀ l, l ∈ loans db → Loan.id l = loan_id →
        Loan.user_id l ≠ User.id current_user) →
  ∃ code d,
    get_loan loan_id current_user db = Raise (HTTPException code d)
    ∧ code = (if decide (filter (λ l, Loan.id l = loan_id) (loans db) = [])
              then HTTP_404_NOT_FOUND else HTTP_403_FORBIDDEN).
Proof.
  intros Hrole Hother. unfold get_loan.
  destruct (filter _ (loans db)) as [|first rest] eqn:Hsel.
  - rewrite decide_True by done. eauto.
  - rewrite (decide_False (P := first :: rest = [])) by done.
    assert (Hin : first ∈ filter (λ l, Loan.id l = loan_id) (loans db))
      by (rewrite Hsel; left).
    apply list_elem_of_filter in Hin as [Hid Hin].
    rewrite decide_True by (split; [exact (Hother first Hin Hid)|exact Hrole]).
    eauto.
Qed.

(** Mallory asks for the loan of alice. *)
Lemma get_loan_denied_witness :
  (User.role mallory ∉ ["admin"; "agent"])
  ∧ (∀ l, l ∈ loans (sample_db "pending") → Loan.id l = "loan-1" →
          Loan.user_id l ≠ User.id mallory)
  ∧ ∃ code d,
      get_loan "loan-1" mallory (sample_db "pending")
      = Raise (HTTPException code d)
      ∧ code = (if decide (filter (λ l, Loan.id l = "loan-1")
                             (loans (sample_db "pending")) = [])
                then HTTP_404_NOT_FOUND else HTTP_403_FORBIDDEN).
Proof.
  assert (Hrole : User.role mallory ∉ ["admin"; "agent"]).
  { intros H. repeat (apply elem_of_cons in H as [H|H]; [discriminate|]).
    by apply elem_of_nil in H. }
  assert (Hother : ∀ l, l ∈ loans (sample_db "pending") → Loan.id l = "loan-1" →
                        Loan.user_id l ≠ User.id mallory).
  { intros l Hl _. apply list_elem_of_singleton in Hl. subst l. discriminate. }
  split; [exact Hrole|]. split; [exact Hother|].
  exact (get_loan_denied "loan-1" mallory (sample_db "pending") Hrole Hother).
Defined.

(** X5. PUT /loans/{id}/status from a user who is not active, or whose
    role is neither [agent] nor [admin], raises 403 and writes nothing. *)
Theorem put_loans_status_forbidden (now : Z) (loan_id : string)
    (status_update : LoanUpdateStatus.t) (user : User.t) (db : DB) :
  User.status user ≠ "active"
  ∨ User.role user ∉ [UserRole_value AGENT; UserRole_value ADMIN] →
  ∃ d,
    PUT_loans_status now loan_id status_update user db
    = (Raise (HTTPException HTTP_403_FORBIDDEN d), db).
Proof.
  intros Hdenied. unfold PUT_loans_status, get_current_active_user.
  destruct (decide (User.status user ≠ "active")) as [|Hactive]; [cbn; eauto|].
  rewrite bind_Ok. unfold require_agent_or_admin.
  destruct Hdenied as [Hst|Hrole]; [done|].
  rewrite decide_True by exact Hrole. eauto.
Qed.

(** The customer alice may not set a status. *)
Lemma put_loans_status_forbidden_witness :
  (User.status alice ≠ "active"
   ∨ User.role alice ∉ [UserRole_value AGENT; UserRole_value ADMIN])
  ∧ ∃ d,
      PUT_loans_status 7 "loan-1" reject_update alice (sample_db "pending")
      = (Raise (HTTPException HTTP_403_FORBIDDEN d), sample_db "pending").
Proof.
  assert (H : User.status alice ≠ "active"
              ∨ User.role alice ∉ [UserRole_value AGENT; UserRole_value ADMIN]).
  { right. intros H. repeat (apply elem_of_cons in H as [H|H]; [discriminate|]).
    by apply elem_of_nil in H. }
  split; [exact H|].
  exact (put_loans_status_forbidden 7 "loan-1" reject_update alice
           (sample_db "pending") H).
Defined.

(** X6. A status other than [approved] written through the route leaves
    the approver and the approval time of the loan as they were, and
    replaces the stored AI decision and confidence by those of the
    request, by null when the request carries none. *)
Theorem update_loan_status_keeps_approval (now : Z) (loan_id : string)
    (status_update : LoanUpdateStatus.t) (user : User.t) (db : DB)
    (loan : Loan.t) (others : list Loan.t) :
  User.status user = "active" →
  User.role user ∈ [UserRole_value AGENT; UserRole_value ADMIN] →
  LoanUpdateStatus.status status_update ≠ APPROVED →
  filter (λ l, Loan.id l = loan_id) (loans db) = loan :: others →
  ∃ row,
    (PUT_loans_status now loan_id status_update user db).1 = Ok row
    ∧ Loan.status row = LoanStatus_value (LoanUpdateStatus.status status_update)
    ∧ Loan.approved_by row = Loan.approved_by loan
    ∧ Loan.approved_at row = Loan.approved_at loan
    ∧ Loan.ai_decision row = LoanUpdateStatus.ai_decision status_update
    ∧ Loan.ai_confidence row = LoanUpdateStatus.ai_confidence status_update.
Proof.
  intros Hst Hrole Hnot Hsel.
  exists (Loan.apply (status_update_data now status_update user) loan).
  split.
  - unfold PUT_loans_status. rewrite (active_agent_or_admin user Hst Hrole).
    unfold update_loan_status. cbn [loans with_loans].
    rewrite filter_update_loans_by_id, Hsel. reflexivity.
  - unfold status_update_data.
    destruct (LoanUpdateStatus.status status_update); try done;
      repeat split; reflexivity.
Qed.

(** The agent rejects the approved loan: the stamp of the approval stays
    and the AI decision is erased. *)
Lemma update_loan_status_keeps_approval_witness :
  let db := with_loans [approved_loan] (sample_db "approved") in
  User.status agent_bob = "active"
  ∧ User.role agent_bob ∈ [UserRole_value AGENT; UserRole_value ADMIN]
  ∧ ∃ row,
      (PUT_loans_status 7 "loan-1" reject_update agent_bob db).1 = Ok row
      ∧ Loan.status row = "rejected"
      ∧ Loan.approved_by row = Some "bob"
      ∧ Loan.approved_at row = Some 5
      ∧ Loan.ai_decision row = None
      ∧ Loan.ai_confidence row = None.
Proof.
  assert (Hst : User.status agent_bob = "active") by reflexivity.
  assert (Hrole : User.role agent_bob
                  ∈ [UserRole_value AGENT; UserRole_value ADMIN])
    by apply list_elem_of_here.
  assert (Hnot : LoanUpdateStatus.status reject_update ≠ APPROVED)
    by discriminate.
  split; [exact Hst|]. split; [exact Hrole|].
  exact (update_loan_status_keeps_approval 7 "loan-1" reject_update agent_bob
           (with_loans [approved_loan] (sample_db "approved"))
           approved_loan [] Hst Hrole Hnot eq_refl).
Defined.

(** X7. [accept_loan] on an id of which the caller owns no loan raises
    404 and writes nothing, also when a loan of that id is pending. *)
Theorem accept_loan_not_owner (down : outage) (now : Z) (loan_id : string)
    (current_user : User.t) (db : DB) :
  down 0%nat = false →
  (∀ l, l ∈ loans db → Loan.id l = loan_id →
        Loan.user_id l ≠ User.id current_user) →
  accept_loan down now loan_id current_user db
  = (Raise (HTTPException HTTP_404_NOT_FOUND (Text "Loan not found")), db).
Proof.
  intros Hup Hother. unfold accept_loan. rewrite Hup.
  destruct (filter _ (loans db)) as [|loan rest] eqn:Hsel; [reflexivity|].
  assert (Hin : loan ∈ filter
      (λ l, Loan.id l = loan_id ∧ Loan.user_id l = User.id current_user)
      (loans db)) by (rewrite Hsel; left).
  apply list_elem_of_filter in Hin as [[Hid Howner] Hin].
  destruct (Hother loan Hin Hid Howner).
Qed.

(** Mallory cannot accept the pending loan of alice. *)
Lemma accept_loan_not_owner_witness :
  no_outage 0%nat = false
  ∧ (∀ l, l ∈ loans (sample_db "pending") → Loan.id l = "loan-1" →
          Loan.user_id l ≠ User.id mallory)
  ∧ accept_loan no_outage 7 "loan-1" mallory (sample_db "pending")
    = (Raise (HTTPException HTTP_404_NOT_FOUND (Text "Loan not found")),
       sample_db "pending").
Proof.
  assert (Hup : no_outage 0%nat = false) by reflexivity.
  assert (Hother : ∀ l, l ∈ loans (sample_db "pending") → Loan.id l = "loan-1" →
                        Loan.user_id l ≠ User.id mallory).
  { intros l Hl _. apply list_elem_of_singleton in Hl. subst l. discriminate. }
  split; [exact Hup|]. split; [exact Hother|].
  exact (accept_loan_not_owner no_outage 7 "loan-1" mallory
           (sample_db "pending") Hup Hother).
Defined.

(** The rows of an id after an update by that id are patched rows. *)
Lemma update_loans_by_id_patched (p : Loan.patch) (loan_id : string)
    (ls : list Loan.t) (l' : Loan.t) :
  l' ∈ update_loans_by_id p loan_id ls → Loan.id l' = loan_id →
  ∃ l, l ∈ ls ∧ l' = Loan.apply p l.
Proof.
  unfold update_loans_by_id. intros Hin Hid.
  apply list_elem_of_fmap in Hin as (l & -> & Hl).
  destruct (decide (Loan.id l = loan_id)) as [_|Hne]; [eauto|done].
Qed.

(** X8. An acceptance is not repeated by a retry: on the store just as an
    acceptance that went through left it, with the one disbursement it
    added, a further [accept_loan] for the same id, by whichever user and
    whatever the store answers, raises and writes nothing. The store in
    between is untouched: a status update back to pending re-opens the
    loan, see [accept_loan_reopened]. *)
Theorem accept_loan_twice (now1 now2 : Z) (loan_id : string)
    (current_user other_user : User.t) (down : outage) (db : DB)
    (loan : Loan.t) (others : list Loan.t) :
  filter (λ l, Loan.id l = loan_id ∧ Loan.user_id l = User.id current_user)
    (loans db) = loan :: others →
  Loan.status loan = "pending" →
  let first := accept_loan no_outage now1 loan_id current_user db in
  transactions first.2
  = transactions db ++ [disbursement now1 loan_id current_user loan]
  ∧ ∃ e, accept_loan down now2 loan_id other_user first.2 = (Raise e, first.2).
Proof.
  intros Hsel Hpending first.
  assert (Hfirst : first.2
    = with_transactions
        (transactions db ++ [disbursement now1 loan_id current_user loan])
        (with_loans
           (update_loans_by_id (acceptance_update_data now1) loan_id (loans db))
           db)).
  { subst first. unfold accept_loan. cbn [no_outage]. rewrite Hsel.
    rewrite decide_False by (intros H; apply H; exact Hpending).
    cbn [loans with_loans transactions].
    destruct (filter _ (update_loans_by_id _ _ _)); reflexivity. }
  rewrite Hfirst. split; [reflexivity|].
  unfold accept_loan at 1. destruct (down 0%nat); [eauto|].
  cbn [loans with_loans with_transactions].
  destruct (filter _ (update_loans_by_id _ _ _)) as [|row rest] eqn:Hsel2;
    [eauto|].
  assert (Hin : row ∈ filter
      (λ l, Loan.id l = loan_id ∧ Loan.user_id l = User.id other_user)
      (update_loans_by_id (acceptance_update_data now1) loan_id (loans db)))
    by (rewrite Hsel2; left).
  apply list_elem_of_filter in Hin as [[Hid _] Hin].
  destruct (update_loans_by_id_patched _ _ _ _ Hin Hid) as (l & _ & ->).
  rewrite decide_True by discriminate. eauto.
Qed.

(** Alice accepts her pending loan twice. *)
Lemma accept_loan_twice_witness :
  let first := accept_loan no_outage 7 "loan-1" alice (sample_db "pending") in
  filter (λ l, Loan.id l = "loan-1" ∧ Loan.user_id l = User.id alice)
    (loans (sample_db "pending")) = [sample_loan "pending"]
  ∧ Loan.status (sample_loan "pending") = "pending"
  ∧ transactions first.2
    = transactions (sample_db "pending")
      ++ [disbursement 7 "loan-1" alice (sample_loan "pending")]
  ∧ ∃ e, accept_loan no_outage 8 "loan-1" alice first.2 = (Raise e, first.2).
Proof.
  assert (Hsel : filter
            (λ l, Loan.id l = "loan-1" ∧ Loan.user_id l = User.id alice)
            (loans (sample_db "pending")) = [sample_loan "pending"])
    by reflexivity.
  split; [exact Hsel|]. split; [reflexivity|].
  exact (accept_loan_twice 7 8 "loan-1" alice alice no_outage
           (sample_db "pending") (sample_loan "pending") [] Hsel eq_refl).
Defined.

(** Once an agent has set the accepted loan back to pending, accepting it
    again disburses it a second time. *)
Example accept_loan_reopened :
  let first := accept_loan no_outage 7 "loan-1" alice (sample_db "pending") in
  let reopened :=
    PUT_loans_status 8 "loan-1"
      {| LoanUpdateStatus.status := PENDING;
         LoanUpdateStatus.ai_decision := None;
         LoanUpdateStatus.ai_confidence := None |} agent_bob first.2 in
  let second := accept_loan no_outage 9 "loan-1" alice reopened.2 in
  (Transaction.created_at <$> transactions second.2) = [7; 9].
Proof. vm_compute. reflexivity. Qed.

(* ===================================================================== *)
(** * Further properties: what the writes keep *)
(* ===================================================================== *)

Lemma rewritten_refl (l : Loan.t) : rewritten l l.
Proof. split; [reflexivity|by left]. Qed.

Lemma rewritten_trans (l1 l2 l3 : Loan.t) :
  rewritten l1 l2 → rewritten l2 l3 → rewritten l1 l3.
Proof.
  intros [Ht1 Hs1] [Ht2 Hs2]. split; [congruence|].
  destruct Hs2 as [Hs2|Hs2]; [|by right].
  rewrite Hs2. exact Hs1.
Qed.

Lemma rewritten_apply (p : Loan.patch) (l : Loan.t) :
  (∀ v, Loan.set_status p = Some v → v ∈ status_values) →
  rewritten l (Loan.apply p l).
Proof.
  intros Hp. split; [reflexivity|]. cbn.
  destruct (Loan.set_status p) as [v|]; [right; by apply Hp|by left].
Qed.

Lemma Forall2_rewritten_refl (ls : list Loan.t) : Forall2 rewritten ls ls.
Proof. induction ls; constructor; [apply rewritten_refl|done]. Qed.

Lemma Forall2_rewritten_trans (ls1 ls2 ls3 : list Loan.t) :
  Forall2 rewritten ls1 ls2 → Forall2 rewritten ls2 ls3 →
  Forall2 rewritten ls1 ls3.
Proof.
  intros H12. revert ls3. induction H12 as [|l1 l2 ls1 ls2 H Hrest IH];
    intros ls3 H23; inversion H23; subst; constructor;
    [by eapply rewritten_trans|by apply IH].
Qed.

Lemma Forall2_rewritten_fmap (f : Loan.t → Loan.t) (ls : list Loan.t) :
  (∀ l, rewritten l (f l)) → Forall2 rewritten ls (f <$> ls).
Proof. intros Hf. induction ls; constructor; [apply Hf|done]. Qed.

Lemma status_value_listed (s : LoanStatus) : LoanStatus_value s ∈ status_values.
Proof. unfold status_values. apply list_elem_of_fmap_2. destruct s; set_solver. Qed.

Lemma update_loans_by_id_rewritten (p : Loan.patch) (loan_id : string)
    (ls : list Loan.t) :
  (∀ v, Loan.set_status p = Some v → v ∈ status_values) →
  Forall2 rewritten ls (update_loans_by_id p loan_id ls).
Proof.
  intros Hp. apply Forall2_rewritten_fmap. intros l.
  case_decide; [by apply rewritten_apply|apply rewritten_refl].
Qed.

Lemma put_loans_status_rewritten (now : Z) (loan_id : string)
    (status_update : LoanUpdateStatus.t) (user : User.t) (db : DB) :
  Forall2 rewritten (loans db)
    (loans (PUT_loans_status now loan_id status_update user db).2).
Proof.
  unfold PUT_loans_status.
  destruct (get_current_active_user user ≫= require_agent_or_admin);
    [|apply Forall2_rewritten_refl].
  unfold update_loan_status. cbn [loans with_loans].
  rewrite filter_update_loans_by_id.
  assert (H : Forall2 rewritten (loans db)
                (update_loans_by_id (status_update_data now status_update a)
                   loan_id (loans db))).
  { apply update_loans_by_id_rewritten. intros v [= <-].
    apply status_value_listed. }
  destruct (filter _ (loans db)); exact H.
Qed.

Lemma accept_loan_rewritten (down : outage) (now : Z) (loan_id : string)
    (current_user : User.t) (db : DB) :
  Forall2 rewritten (loans db)
    (loans (accept_loan down now loan_id current_user db).2).
Proof.
  assert (H : Forall2 rewritten (loans db)
                (update_loans_by_id (acceptance_update_data now) loan_id
                   (loans db))).
  { apply update_loans_by_id_rewritten. intros v [= <-].
    exact (status_value_listed APPROVED). }
  unfold accept_loan.
  destruct (down 0%nat); [apply Forall2_rewritten_refl|].
  destruct (filter _ (loans db)); [apply Forall2_rewritten_refl|].
  case_decide; [apply Forall2_rewritten_refl|].
  destruct (down 1%nat); [apply Forall2_rewritten_refl|].
  destruct (down 2%nat); [exact H|].
  cbn [loans with_loans with_transactions].
  destruct (filter _ (update_loans_by_id _ _ _)); exact H.
Qed.

Lemma store_acceptance_rewritten (now : Z) (args : json) (user_id : string)
    (db : DB) :
  Forall2 rewritten (loans db)
    (loans (_store_acceptance now args user_id db).2).
Proof.
  unfold _store_acceptance.
  destruct args; try apply Forall2_rewritten_refl.
  destruct (fields !! "loan_id"); [|apply Forall2_rewritten_refl].
  destruct (fields !! "accepted"); [|apply Forall2_rewritten_refl].
  cbn [loans with_loans snd]. apply Forall2_rewritten_fmap. intros l.
  destruct (selects j l); [|apply rewritten_refl].
  apply rewritten_apply. intros v [= <-].
  destruct (truthy j0);
    [exact (status_value_listed APPROVED)|exact (status_value_listed REJECTED)].
Qed.

Lemma store_acceptance_leaves (now : Z) (args : json) (user_id : string)
    (db : DB) :
  tools_leave db (_store_acceptance now args user_id db).2.
Proof.
  unfold _store_acceptance. destruct args; try done.
  destruct (fields !! "loan_id"); [|done].
  destruct (fields !! "accepted"); done.
Qed.

Lemma store_message_loans (thread_id role content : string) (db : DB) :
  loans (_store_message thread_id role content db) = loans db.
Proof.
  unfold _store_message.
  destruct (filter _ (conversation_threads db)); reflexivity.
Qed.

Lemma store_message_threads (thread_id role content : string) (db : DB) :
  conversation_threads (_store_message thread_id role content db)
  = conversation_threads db
  ∧ transactions (_store_message thread_id role content db) = transactions db.
Proof.
  unfold _store_message.
  destruct (filter _ (conversation_threads db)); split; reflexivity.
Qed.

Section turn.

Context (upsert : gmap string json → list (gmap string json)
                  → list (gmap string json)).
Context (cfg : Settings).

Lemma complete_onboarding_leaves (args : json) (db : DB) :
  tools_leave db (_complete_onboarding upsert args db).2
  ∧ loans (_complete_onboarding upsert args db).2 = loans db.
Proof.
  unfold _complete_onboarding. destruct args; try done.
  destruct (fields !! "user_id"); [|done].
  destruct (fields !! "profile_data") as [[]|]; done.
Qed.

Lemma execute_function_rewritten (now : Z) (function_name : string)
    (arguments : json) (user_id : string) (db : DB) :
  Forall2 rewritten (loans db)
    (loans (_execute_function upsert cfg now function_name arguments
              user_id db).2).
Proof.
  unfold _execute_function.
  case_decide; [apply Forall2_rewritten_refl|].
  case_decide; [apply store_acceptance_rewritten|].
  case_decide; [apply Forall2_rewritten_refl|].
  case_decide; [|apply Forall2_rewritten_refl].
  rewrite (proj2 (complete_onboarding_leaves arguments db)).
  apply Forall2_rewritten_refl.
Qed.

Lemma execute_function_leaves (now : Z) (function_name : string)
    (arguments : json) (user_id : string) (db : DB) :
  tools_leave db
    (_execute_function upsert cfg now function_name arguments user_id db).2.
Proof.
  unfold _execute_function.
  case_decide; [done|].
  case_decide; [apply store_acceptance_leaves|].
  case_decide; [done|].
  case_decide; [apply complete_onboarding_leaves|done].
Qed.

(** A batch of tool calls as a whole, whether it returns or raises. *)
Lemma handle_each_keeps (now : Z) (user_id : string)
    (tool_calls : list ToolCall.t) :
  ∀ (tool_outputs : list ToolOutput.t) (db : DB),
    let db' :=
      (handle_each upsert cfg now user_id tool_outputs tool_calls db).2 in
    Forall2 rewritten (loans db) (loans db') ∧ tools_leave db db'.
Proof.
  induction tool_calls as [|tool_call rest IH]; intros tool_outputs db.
  { split; [apply Forall2_rewritten_refl|done]. }
  cbn [handle_each]. destruct (ToolCall.arguments tool_call) as [arguments|];
    [|split; [apply Forall2_rewritten_refl|done]].
  pose proof (execute_function_rewritten now (ToolCall.name tool_call)
                arguments user_id db) as Hr.
  pose proof (execute_function_leaves now (ToolCall.name tool_call)
                arguments user_id db) as (Ht & Hc & Hm).
  destruct (_execute_function upsert cfg now (ToolCall.name tool_call)
              arguments user_id db) as [[result|e] db1]; [|done].
  cbn [snd] in *.
  destruct (IH (tool_outputs ++
                  [{| ToolOutput.tool_call_id := ToolCall.id tool_call;
                      ToolOutput.output := result |}]) db1)
    as (Hr' & Ht' & Hc' & Hm').
  split; [by eapply Forall2_rewritten_trans|].
  repeat split; congruence.
Qed.

(** The loop over the polls of a run. *)
Lemma wait_for_completion_keeps (now : Z) (user_id : string)
    (polls : list Run.t) :
  ∀ db : DB,
    let db' := (wait_for_completion upsert cfg now user_id polls db).2 in
    Forall2 rewritten (loans db) (loans db') ∧ tools_leave db db'.
Proof.
  induction polls as [|run_status later IH]; intros db.
  { split; [apply Forall2_rewritten_refl|done]. }
  cbn [wait_for_completion].
  case_decide; [split; [apply Forall2_rewritten_refl|done]|].
  case_decide.
  - unfold _handle_tool_calls.
    pose proof (handle_each_keeps now user_id (Run.tool_calls run_status) [] db)
      as (Hr & Ht & Hc & Hm).
    destruct (handle_each upsert cfg now user_id [] (Run.tool_calls run_status) db)
      as [[tool_outputs|e] db1]; [|done].
    cbn [snd] in *. destruct (IH db1) as (Hr' & Ht' & Hc' & Hm').
    split; [by eapply Forall2_rewritten_trans|].
    repeat split; congruence.
  - case_decide; [split; [apply Forall2_rewritten_refl|done]|]. apply IH.
Qed.

Lemma send_message_rewritten (now : Z) (assistant : Assistant.t)
    (thread_id message user_id : string) (db : DB) :
  Forall2 rewritten (loans db)
    (loans (send_message upsert cfg now assistant thread_id message
              user_id db).2).
Proof.
  unfold send_message.
  pose proof (wait_for_completion_keeps now user_id (Assistant.polls assistant)
                (_store_message thread_id "user" message db)) as [Hr _].
  rewrite store_message_loans in Hr.
  destruct (wait_for_completion upsert cfg now user_id
              (Assistant.polls assistant) _) as [[[]|e|] db1]; try exact Hr.
  cbn [snd] in Hr. destruct (Assistant.listing assistant) as [|content ?];
    [exact Hr|].
  destruct content as [|[text|] ?]; try exact Hr.
  cbn [snd]. rewrite store_message_loans. exact Hr.
Qed.

Lemma rewritten_terms (ls ls' : list Loan.t) :
  Forall2 rewritten ls ls' → loan_terms <$> ls' = loan_terms <$> ls.
Proof.
  induction 1 as [|l l' ls ls' [Ht _] _ IH]; [reflexivity|].
  rewrite !fmap_cons. congruence.
Qed.

Lemma rewritten_status (ls ls' : list Loan.t) :
  Forall2 rewritten ls ls' →
  Forall (λ l, Loan.status l ∈ status_values) ls →
  Forall (λ l, Loan.status l ∈ status_values) ls'.
Proof.
  induction 1 as [|l l' ls ls' [_ Hs] _ IH]; [done|].
  intros Hall. apply Forall_cons in Hall as [Hl Hall].
  constructor; [|by apply IH].
  destruct Hs as [->|Hs]; done.
Qed.

(** X9. The terms of the loans are fixed once they are in the store: a
    status update, an acceptance (however the store answers its
    requests) and a whole chat turn with all its tool calls leave the
    number and the order of the loans and, for each loan, its id, owner,
    amount, rate, tenure, total repayment and creation time as they
    were. *)
Theorem loan_terms_kept (now : Z) (loan_id : string)
    (status_update : LoanUpdateStatus.t) (user : User.t) (down : outage)
    (assistant : Assistant.t) (thread_id message : string) (db : DB) :
  loan_terms <$> loans (PUT_loans_status now loan_id status_update user db).2
  = loan_terms <$> loans db
  ∧ loan_terms <$> loans (accept_loan down now loan_id user db).2
    = loan_terms <$> loans db
  ∧ loan_terms <$> loans (send_message upsert cfg now assistant thread_id
                            message (User.id user) db).2
    = loan_terms <$> loans db.
Proof.
  split; [|split]; apply rewritten_terms.
  - apply put_loans_status_rewritten.
  - apply accept_loan_rewritten.
  - apply send_message_rewritten.
Qed.

(** X10. When every loan has one of the six values of [LoanStatus] as its
    status, so it has after a status update, after an acceptance and
    after a chat turn: each of them writes nothing but such values. *)
Theorem loan_status_domain_kept (now : Z) (loan_id : string)
    (status_update : LoanUpdateStatus.t) (user : User.t) (down : outage)
    (assistant : Assistant.t) (thread_id message : string) (db : DB) :
  Forall (λ l, Loan.status l ∈ status_values) (loans db) →
  Forall (λ l, Loan.status l ∈ status_values)
    (loans (PUT_loans_status now loan_id status_update user db).2)
  ∧ Forall (λ l, Loan.status l ∈ status_values)
      (loans (accept_loan down now loan_id user db).2)
  ∧ Forall (λ l, Loan.status l ∈ status_values)
      (loans (send_message upsert cfg now assistant thread_id message
                (User.id user) db).2).
Proof.
  intros Hall. split; [|split]; (eapply rewritten_status; [|exact Hall]).
  - apply put_loans_status_rewritten.
  - apply accept_loan_rewritten.
  - apply send_message_rewritten.
Qed.

(** X11. No tool call writes to [transactions], [conversation_threads] or
    [messages]: waiting for a run, with every batch of tool calls it
    carries out, leaves the three tables as they were. In particular an
    acceptance stored by the assistant records no disbursement. *)
Theorem tool_calls_leave_transactions (now : Z) (user_id : string)
    (polls : list Run.t) (db : DB) :
  let db' := (wait_for_completion upsert cfg now user_id polls db).2 in
  transactions db' = transactions db
  ∧ conversation_threads db' = conversation_threads db
  ∧ messages db' = messages db.
Proof. apply wait_for_completion_keeps. Qed.

End turn.

(** A turn of the sample assistant that stores an acceptance: the loan is
    approved, the reply is stored, and there is no disbursement. *)
Example accepting_turn :
  let result :=
    send_message upsert_append settings 7 accepting_assistant "thread_abc"
      "Yes, I accept" "alice" chat_db in
  (Loan.status <$> loans result.2) = ["approved"]
  ∧ transactions result.2 = []
  ∧ (Message.role <$> messages result.2) = ["assistant"; "user"; "assistant"].
Proof. repeat split; vm_compute; reflexivity. Qed.

(** Every loan of the sample store has a status of the enumeration. *)
Lemma loan_status_domain_kept_witness :
  Forall (λ l, Loan.status l ∈ status_values) (loans chat_db)
  ∧ Forall (λ l, Loan.status l ∈ status_values)
      (loans (send_message upsert_append settings 7 accepting_assistant
                "thread_abc" "Yes, I accept" (User.id alice) chat_db).2).
Proof.
  assert (H : Forall (λ l, Loan.status l ∈ status_values) (loans chat_db)).
  { constructor; [exact (status_value_listed PENDING)|constructor]. }
  split; [exact H|].
  exact (proj2 (proj2 (loan_status_domain_kept upsert_append settings 7
           "loan-1" reject_update alice no_outage accepting_assistant
           "thread_abc" "Yes, I accept" chat_db H))).
Defined.

(* ===================================================================== *)
(** * Further properties: batches of tool calls *)
(* ===================================================================== *)

Section batch.

Context (upsert : gmap string json → list (gmap string json)
                  → list (gmap string json)).
Context (cfg : Settings).

(** The outputs so far are only carried along. *)
Lemma handle_each_outputs (now : Z) (user_id : string)
    (tool_calls : list ToolCall.t) :
  ∀ (tool_outputs : list ToolOutput.t) (db : DB),
    handle_each upsert cfg now user_id tool_outputs tool_calls db
    = match handle_each upsert cfg now user_id [] tool_calls db with
      | (Ok outputs, db') => (Ok (tool_outputs ++ outputs), db')
      | (Raise e, db') => (Raise e, db')
      end.
Proof.
  induction tool_calls as [|tool_call rest IH]; intros tool_outputs db.
  { cbn. by rewrite app_nil_r. }
  cbn [handle_each]. destruct (ToolCall.arguments tool_call); [|done].
  destruct (_execute_function _ _ _ _ _ _ _) as [[result|e] db1]; [|done].
  rewrite (IH (tool_outputs ++ _)), (IH ([] ++ _)).
  destruct (handle_each upsert cfg now user_id [] rest db1) as [[outputs|e] db2];
    [|done].
  by rewrite <- app_assoc.
Qed.

Lemma handle_each_app (now : Z) (user_id : string)
    (calls1 calls2 : list ToolCall.t) :
  ∀ (tool_outputs outputs1 : list ToolOutput.t) (db db1 : DB),
    handle_each upsert cfg now user_id tool_outputs calls1 db
    = (Ok outputs1, db1) →
    handle_each upsert cfg now user_id tool_outputs (calls1 ++ calls2) db
    = handle_each upsert cfg now user_id outputs1 calls2 db1.
Proof.
  induction calls1 as [|tool_call rest IH];
    intros tool_outputs outputs1 db db1 H1.
  { cbn in H1. by injection H1 as -> ->. }
  cbn [handle_each app] in *.
  destruct (ToolCall.arguments tool_call); [|done].
  destruct (_execute_function _ _ _ _ _ _ _) as [[result|e] db']; [|done].
  by apply IH.
Qed.

Lemma handle_each_ids (now : Z) (user_id : string)
    (tool_calls : list ToolCall.t) :
  ∀ (tool_outputs outputs : list ToolOutput.t) (db db' : DB),
    handle_each upsert cfg now user_id tool_outputs tool_calls db
    = (Ok outputs, db') →
    ToolOutput.tool_call_id <$> outputs
    = (ToolOutput.tool_call_id <$> tool_outputs) ++ (ToolCall.id <$> tool_calls).
Proof.
  induction tool_calls as [|tool_call rest IH];
    intros tool_outputs outputs db db' H.
  { cbn in H. injection H as -> ->. by rewrite app_nil_r. }
  cbn [handle_each] in H.
  destruct (ToolCall.arguments tool_call); [|done].
  destruct (_execute_function _ _ _ _ _ _ _) as [[result|e] db1]; [|done].
  rewrite (IH _ _ _ _ H), fmap_app, <- app_assoc. reflexivity.
Qed.

(** X12. When [_handle_tool_calls] returns, it returns one output for
    each tool call, in the order of the calls, each under the id of its
    call. *)
Theorem handle_tool_calls_one_output_each (now : Z)
    (tool_calls : list ToolCall.t) (user_id : string) (db db' : DB)
    (tool_outputs : list ToolOutput.t) :
  _handle_tool_calls upsert cfg now tool_calls user_id db
  = (Ok tool_outputs, db') →
  ToolOutput.tool_call_id <$> tool_outputs = ToolCall.id <$> tool_calls
  ∧ length tool_outputs = length tool_calls.
Proof.
  intros H. apply handle_each_ids in H. cbn in H. split; [exact H|].
  by rewrite <- (length_fmap ToolOutput.tool_call_id), H, length_fmap.
Qed.

(** X13. A batch of tool calls is carried out call by call, each call
    against the store the calls before it left, and nothing is undone:
    when the first calls of a batch return, the batch ends as the rest of
    it does on the store they left, so when a later call raises the batch
    raises and the writes of the earlier calls stay. *)
Theorem handle_tool_calls_no_rollback (now : Z)
    (calls1 calls2 : list ToolCall.t) (user_id : string) (db db1 : DB)
    (outputs1 : list ToolOutput.t) :
  _handle_tool_calls upsert cfg now calls1 user_id db = (Ok outputs1, db1) →
  _handle_tool_calls upsert cfg now (calls1 ++ calls2) user_id db
  = match _handle_tool_calls upsert cfg now calls2 user_id db1 with
    | (Ok outputs2, db2) => (Ok (outputs1 ++ outputs2), db2)
    | (Raise e, db2) => (Raise e, db2)
    end.
Proof.
  unfold _handle_tool_calls. intros H1.
  rewrite (handle_each_app now user_id calls1 calls2 [] outputs1 db db1 H1).
  apply handle_each_outputs.
Qed.

(** X14. A [calculate_loan_offer] call with a tenure of zero, the [int]
    or a [float], raises [ZeroDivisionError] for every amount and rate
    whose arithmetic stays within the range of [float], and with it the
    wait for the run raises, leaving the store as it was. *)
Theorem calculate_loan_offer_zero_tenure (now : Z) (amount : number)
    (interest_rate : option number) (tenure_days : number) (id user_id : string)
    (later : list Run.t) (db : DB) :
  let r := default (Float (DEFAULT_INTEREST_RATE cfg)) interest_rate in
  in_float_range amount = true →
  percent_in_float_range amount r = true →
  is_zero tenure_days = true →
  let arguments := number_args amount interest_rate (Some tenure_days) in
  _calculate_loan cfg arguments = Raise ZeroDivisionError
  ∧ wait_for_completion upsert cfg now user_id
      ({| Run.status := "requires_action";
          Run.tool_calls :=
            [{| ToolCall.id := id; ToolCall.name := "calculate_loan_offer";
                ToolCall.arguments := Some arguments |}] |} :: later) db
    = (Raised ZeroDivisionError, db).
Proof.
  intros r Ha Hp Hzero arguments.
  assert (Hcalc : _calculate_loan cfg arguments = Raise ZeroDivisionError).
  { assert (Ht : in_float_range tenure_days = true).
    { destruct tenure_days as [n|x]; [|reflexivity].
      cbn [is_zero in_float_range] in *. apply Z.eqb_eq in Hzero. subst n.
      reflexivity. }
    destruct (percent_in_range amount r Ha Hp) as (charge & percent & Hc & Hpc).
    destruct (months_in_range tenure_days Ht) as [months Hm].
    destruct (add_in_range amount (percent * months)%float Ha) as [total Htot].
    pose proof (truediv_in_range (percent * months)%float tenure_days Ht) as Hd.
    rewrite Hzero in Hd.
    subst arguments. rewrite calculate_loan_numbers. fold r.
    change (default (Int (DEFAULT_LOAN_TENURE_DAYS cfg)) (Some tenure_days))
      with tenure_days.
    rewrite Hc, bind_Ok, Hpc, bind_Ok, Hm, bind_Ok, Htot, bind_Ok, Hd.
    reflexivity. }
  split; [exact Hcalc|].
  cbn [wait_for_completion Run.status Run.tool_calls].
  rewrite decide_False by discriminate. rewrite decide_True by reflexivity.
  unfold _handle_tool_calls.
  cbn [handle_each ToolCall.arguments ToolCall.name].
  unfold _execute_function. rewrite decide_True by reflexivity.
  rewrite Hcalc. reflexivity.
Qed.

(** X15. A tool call whose arguments lack a key that its handler reads
    with a subscript raises [KeyError] for the first such key and writes
    nothing. The handler of [get_loan_info] reads no key. *)
Theorem tool_call_missing_argument (now : Z) (function_name : string)
    (d : gmap string json) (user_id : string) (db : DB) (i : nat)
    (key : string) :
  list_find (λ k, d !! k = None) (subscripts function_name) = Some (i, key) →
  _execute_function upsert cfg now function_name (JObj d) user_id db
  = (Raise (KeyError key), db).
Proof.
  unfold subscripts, _execute_function.
  destruct (decide (function_name = "calculate_loan_offer")) as [->|?].
  { cbn. case_decide as Hk; [|done]. intros [= <- <-].
    unfold _calculate_loan. by rewrite Hk. }
  destruct (decide (function_name = "store_customer_acceptance")) as [->|?].
  { cbn. unfold _store_acceptance.
    case_decide as Hk; [intros [= <- <-]; by rewrite Hk|].
    destruct (d !! "loan_id"); [|done].
    case_decide as Hk'; [intros [= <- <-]; by rewrite Hk'|done]. }
  destruct (decide (function_name = "get_loan_info")) as [->|?]; [done|].
  destruct (decide (function_name = "complete_onboarding")) as [->|?]; [|done].
  cbn. unfold _complete_onboarding.
  case_decide as Hk; [intros [= <- <-]; by rewrite Hk|].
  destruct (d !! "user_id"); [|done].
  case_decide as Hk'; [intros [= <- <-]; by rewrite Hk'|done].
Qed.

End batch.

(** The acceptance is stored, then the malformed call fails the batch. *)
Lemma handle_tool_calls_no_rollback_witness :
  let db1 :=
    with_loans
      (update_loans_by_id (decision_update_data 7 true) "loan-1"
         (loans chat_db)) chat_db in
  _handle_tool_calls upsert_append settings 7 [accept_call] "alice" chat_db
  = (Ok [{| ToolOutput.tool_call_id := "call_1";
            ToolOutput.output := AcceptanceDict true "approved" |}], db1)
  ∧ _handle_tool_calls upsert_append settings 7
      ([accept_call] ++ [malformed_call]) "alice" chat_db
    = match _handle_tool_calls upsert_append settings 7 [malformed_call]
              "alice" db1 with
      | (Ok outputs2, db2) =>
          (Ok ([{| ToolOutput.tool_call_id := "call_1";
                   ToolOutput.output := AcceptanceDict true "approved" |}]
               ++ outputs2), db2)
      | (Raise e, db2) => (Raise e, db2)
      end.
Proof.
  assert (H1 : _handle_tool_calls upsert_append settings 7 [accept_call]
                 "alice" chat_db
               = (Ok [{| ToolOutput.tool_call_id := "call_1";
                         ToolOutput.output := AcceptanceDict true "approved" |}],
                  with_loans
                    (update_loans_by_id (decision_update_data 7 true) "loan-1"
                       (loans chat_db)) chat_db))
    by (vm_compute; reflexivity).
  split; [exact H1|].
  exact (handle_tool_calls_no_rollback upsert_append settings 7 [accept_call]
           [malformed_call] "alice" chat_db _ _ H1).
Defined.

(** The batch of the witness, evaluated: it raises, and the loan is
    approved in the store it leaves. *)
Example batch_not_undone :
  let result :=
    _handle_tool_calls upsert_append settings 7 [accept_call; malformed_call]
      "alice" chat_db in
  result.1 = Raise JSONDecodeError
  ∧ (Loan.status <$> loans result.2) = ["approved"].
Proof. split; vm_compute; reflexivity. Qed.

Lemma handle_tool_calls_one_output_each_witness :
  let outputs :=
    [{| ToolOutput.tool_call_id := "call_1";
        ToolOutput.output := AcceptanceDict true "approved" |}] in
  let db1 :=
    with_loans
      (update_loans_by_id (decision_update_data 7 true) "loan-1"
         (loans chat_db)) chat_db in
  _handle_tool_calls upsert_append settings 7 [accept_call] "alice" chat_db
  = (Ok outputs, db1)
  ∧ (ToolOutput.tool_call_id <$> outputs) = (ToolCall.id <$> [accept_call])
  ∧ length outputs = length [accept_call].
Proof.
  assert (H1 : _handle_tool_calls upsert_append settings 7 [accept_call]
                 "alice" chat_db
               = (Ok [{| ToolOutput.tool_call_id := "call_1";
                         ToolOutput.output := AcceptanceDict true "approved" |}],
                  with_loans
                    (update_loans_by_id (decision_update_data 7 true) "loan-1"
                       (loans chat_db)) chat_db))
    by (vm_compute; reflexivity).
  split; [exact H1|].
  exact (handle_tool_calls_one_output_each upsert_append settings 7
           [accept_call] "alice" chat_db _ _ H1).
Defined.

(** An [int] amount of 1000 at the default rate, with the [int] tenure 0. *)
Lemma calculate_loan_offer_zero_tenure_witness :
  in_float_range (Int 1000) = true
  ∧ percent_in_float_range (Int 1000) (Float (DEFAULT_INTEREST_RATE settings))
    = true
  ∧ is_zero (Int 0) = true
  ∧ _calculate_loan settings (number_args (Int 1000) None (Some (Int 0)))
    = Raise ZeroDivisionError.
Proof.
  assert (H1 : in_float_range (Int 1000) = true) by reflexivity.
  assert (H2 : percent_in_float_range (Int 1000)
                 (Float (DEFAULT_INTEREST_RATE settings)) = true) by reflexivity.
  assert (H3 : is_zero (Int 0) = true) by reflexivity.
  repeat (split; [assumption|]).
  exact (proj1 (calculate_loan_offer_zero_tenure upsert_append settings 7
                  (Int 1000) None (Int 0) "call_1" "alice" [] chat_db
                  H1 H2 H3)).
Defined.

Lemma tool_call_missing_argument_witness :
  list_find (λ k, ({["loan_id" := JStr "loan-1"]} : gmap string json) !! k = None)
    (subscripts "store_customer_acceptance") = Some (1%nat, "accepted")
  ∧ _execute_function upsert_append settings 7 "store_customer_acceptance"
      (JObj {["loan_id" := JStr "loan-1"]}) "alice" chat_db
    = (Raise (KeyError "accepted"), chat_db).
Proof.
  assert (H : list_find
            (λ k, ({["loan_id" := JStr "loan-1"]} : gmap string json) !! k = None)
            (subscripts "store_customer_acceptance") = Some (1%nat, "accepted"))
    by (vm_compute; reflexivity).
  split; [exact H|].
  exact (tool_call_missing_argument upsert_append settings 7
           "store_customer_acceptance" {["loan_id" := JStr "loan-1"]} "alice"
           chat_db 1 "accepted" H).
Defined.

(* ===================================================================== *)
(** * Further properties: the two offer computations *)
(* ===================================================================== *)




(** The route at the amount and the rate of [calculate_loan_offer_ints]:
    the product of the two [float]s is rounded before the division, and
    the interest differs from the handler's in its last bit. *)
Example calculate_loan_floats :
  POST_loans_calculate settings {|
    LoanCalculateRequest.amount := 35623;
    LoanCalculateRequest.interest_rate := Some 1497806057043%float;
    LoanCalculateRequest.tenure_days := Some 30 |}
  = Ok {|
    LoanCalculateResponse.amount := 35623;
    LoanCalculateResponse.interest_rate := 1497806057043;
    LoanCalculateResponse.tenure_days := 30;
    LoanCalculateResponse.interest_amount := 533563451700427.9375;
    LoanCalculateResponse.total_repayment := 533563451736050.9375;
    LoanCalculateResponse.daily_interest := 0x1.02cff555d7e45p+44 |}.
Proof. vm_compute. reflexivity. Qed.

(* ===================================================================== *)
(** * Further properties: threads and messages *)
(* ===================================================================== *)

Ltac not_among H :=
  repeat (apply elem_of_cons in H as [H|H]; [discriminate|]);
  by apply elem_of_nil in H.

Lemma filter_none {A} (P : A → Prop) `{!∀ x, Decision (P x)} (l : list A) :
  (∀ x, x ∈ l → ¬ P x) → filter P l = [].
Proof.
  induction l as [|x l IH]; intros Hnone; [reflexivity|].
  rewrite filter_cons_False by (apply Hnone; left).
  apply IH. intros y Hy. apply Hnone. by right.
Qed.

Lemma store_message_unknown (thread_id role content : string) (db : DB) :
  filter (λ t, Thread.openai_thread_id t = thread_id) (conversation_threads db)
  = [] →
  _store_message thread_id role content db = db.
Proof. intros H. unfold _store_message. by rewrite H. Qed.

Lemma store_message_known (thread_id role content : string) (db : DB)
    (thread : Thread.t) (others : list Thread.t) :
  filter (λ t, Thread.openai_thread_id t = thread_id) (conversation_threads db)
  = thread :: others →
  messages (_store_message thread_id role content db)
  = messages db ++ [{| Message.thread_id := Thread.id thread;
                       Message.role := role;
                       Message.content := content |}].
Proof. intros H. unfold _store_message. by rewrite H. Qed.

Lemma order_desc_length {A} (key : A → Z) (l : list A) :
  length (order_desc key l) = length l.
Proof. by rewrite order_desc_perm. Qed.

Lemma active_threads_app (user_id : string) (db : DB) (rows : list Thread.t) :
  active_threads user_id
    (with_conversation_threads (conversation_threads db ++ rows) db)
  = active_threads user_id db
    ++ filter (λ t, Thread.user_id t = user_id ∧ Thread.status t = "active") rows.
Proof. unfold active_threads. cbn. apply filter_app. Qed.

(** X17. [get_or_create_thread] keeps the convention of one active thread
    for each user: when no user has more than one active thread, none has
    after the call, the user of the call has exactly one, and the threads
    that were there are still there, in their order, before any new
    one. *)
Theorem get_or_create_thread_one_active (thread_id : string) (g : Generated)
    (user_id : string) (db : DB) :
  (∀ u, (length (active_threads u db) ≤ 1)%nat) →
  let db' := (get_or_create_thread thread_id g user_id db).2 in
  (∀ u, (length (active_threads u db') ≤ 1)%nat)
  ∧ length (active_threads user_id db') = 1%nat
  ∧ conversation_threads db `prefix_of` conversation_threads db'.
Proof.
  intros Hone.
  destruct (take 1 (order_desc Thread.created_at
              (filter (λ t, Thread.user_id t = user_id ∧ Thread.status t = "active")
                 (conversation_threads db)))) as [|row older] eqn:Hfound.
  - apply take_order_desc_nil in Hfound.
    rewrite (get_or_create_thread_created thread_id g user_id db Hfound).
    cbn [snd]. split; [|split].
    + intros u. rewrite active_threads_app.
      destruct (decide (u = user_id)) as [->|Hne].
      * unfold active_threads at 1. rewrite Hfound, app_nil_l.
        rewrite filter_cons_True by done. cbn. lia.
      * rewrite filter_cons_False by (intros [Hu _]; cbn in Hu; congruence).
        rewrite filter_nil, app_nil_r. apply Hone.
    + rewrite active_threads_app. unfold active_threads at 1.
      rewrite Hfound, app_nil_l.
      rewrite filter_cons_True by done. reflexivity.
    + cbn. by apply prefix_app_r.
  - rewrite (get_or_create_thread_found thread_id g user_id db row older Hfound).
    cbn [snd]. split; [exact Hone|]. split; [|done].
    pose proof (Hone user_id) as Hle.
    assert (Hlen : (0 < length (active_threads user_id db))%nat).
    { unfold active_threads.
      rewrite <- (order_desc_length Thread.created_at).
      destruct (order_desc Thread.created_at _); [discriminate|cbn; lia]. }
    lia.
Qed.

(** The sample store has one thread. *)
Lemma get_or_create_thread_one_active_witness :
  let db' :=
    (get_or_create_thread "thread_new" {| uuid := "t-2"; now := 60 |}
       "mallory" chat_db).2 in
  (∀ u, (length (active_threads u chat_db) ≤ 1)%nat)
  ∧ (∀ u, (length (active_threads u db') ≤ 1)%nat)
  ∧ length (active_threads "mallory" db') = 1%nat
  ∧ conversation_threads chat_db `prefix_of` conversation_threads db'.
Proof.
  assert (H : ∀ u, (length (active_threads u chat_db) ≤ 1)%nat).
  { intros u. unfold active_threads.
    etrans; [apply length_filter|]. reflexivity. }
  split; [exact H|].
  exact (get_or_create_thread_one_active "thread_new"
           {| uuid := "t-2"; now := 60 |} "mallory" chat_db H).
Defined.

Lemma take_one_head {A} (l : list A) (row : A) (older : list A) :
  take 1 l = row :: older → row ∈ l.
Proof. destruct l; [discriminate|]. cbn. intros [= -> _]. left. Qed.

(** X18. GET /ai/thread and the manager agree: the route returns a row,
    an active thread of the caller, and [get_or_create_thread] on the
    same store returns the handle of that row and leaves the same
    store. *)
Theorem get_ai_thread_is_managers (thread_id : string) (g : Generated)
    (current_user : User.t) (db : DB) :
  ∃ row,
    (GET_ai_thread thread_id g current_user db).1 = Some row
    ∧ Thread.user_id row = User.id current_user
    ∧ Thread.status row = "active"
    ∧ get_or_create_thread thread_id g (User.id current_user) db
      = (Ok (Thread.openai_thread_id row),
         (GET_ai_thread thread_id g current_user db).2).
Proof.
  unfold GET_ai_thread, get_or_create_thread.
  destruct (take 1 (order_desc Thread.created_at _)) as [|row older] eqn:Hfound.
  - cbn. eexists. repeat split.
  - exists row. cbn. repeat split.
    all: apply take_one_head in Hfound as Hin.
    all: rewrite order_desc_perm in Hin.
    all: apply list_elem_of_filter in Hin as [[Hu Hs] _]; done.
Qed.

Section messages.

Context (upsert : gmap string json → list (gmap string json)
                  → list (gmap string json)).
Context (cfg : Settings).

(** X19. A turn on a handle that no thread of the store has keeps no
    transcript: [send_message] writes nothing to [messages], however the
    run ends. *)
Theorem send_message_unknown_thread (now : Z) (assistant : Assistant.t)
    (thread_id message user_id : string) (db : DB) :
  (∀ t, t ∈ conversation_threads db → Thread.openai_thread_id t ≠ thread_id) →
  messages (send_message upsert cfg now assistant thread_id message
              user_id db).2 = messages db.
Proof.
  intros Hunknown.
  assert (Hnone : filter (λ t, Thread.openai_thread_id t = thread_id)
                    (conversation_threads db) = []).
  { apply filter_none. exact Hunknown. }
  unfold send_message. rewrite (store_message_unknown _ _ _ _ Hnone).
  pose proof (wait_for_completion_keeps upsert cfg now user_id
                (Assistant.polls assistant) db) as (_ & _ & Hc & Hm).
  destruct (wait_for_completion upsert cfg now user_id
              (Assistant.polls assistant) db) as [[[]|e|] db1];
    cbn [snd] in *; try exact Hm.
  destruct (Assistant.listing assistant) as [|[|[text|] ?] ?]; try exact Hm.
  cbn [snd]. rewrite store_message_unknown by (by rewrite Hc). exact Hm.
Qed.

(** X20. A turn whose run completes and whose reply has a text appends
    two rows to [messages], the user's message and then the reply, both
    under the local id of the thread, and returns the reply. *)
Theorem send_message_completed (now : Z) (assistant : Assistant.t)
    (thread_id message user_id : string) (db : DB) (thread : Thread.t)
    (others : list Thread.t) (text : string) (blocks : list (option string))
    (more : list (list (option string))) :
  filter (λ t, Thread.openai_thread_id t = thread_id) (conversation_threads db)
  = thread :: others →
  (wait_for_completion upsert cfg now user_id (Assistant.polls assistant)
     (_store_message thread_id "user" message db)).1 = Returned tt →
  Assistant.listing assistant = (Some text :: blocks) :: more →
  let result :=
    send_message upsert cfg now assistant thread_id message user_id db in
  result.1 = Returned (Some {| ChatReply.message := text;
                               ChatReply.thread_id := thread_id;
                               ChatReply.role := "assistant" |})
  ∧ messages result.2
    = messages db
      ++ [{| Message.thread_id := Thread.id thread; Message.role := "user";
             Message.content := message |};
          {| Message.thread_id := Thread.id thread;
             Message.role := "assistant"; Message.content := text |}].
Proof.
  intros Hthread Hwait Hlisting result. subst result. unfold send_message.
  pose proof (wait_for_completion_keeps upsert cfg now user_id
                (Assistant.polls assistant)
                (_store_message thread_id "user" message db))
    as (_ & _ & Hc & Hm).
  destruct (wait_for_completion upsert cfg now user_id
              (Assistant.polls assistant) _) as [[[]|e|] db1];
    cbn [fst snd] in *; try discriminate.
  rewrite Hlisting. cbn [fst snd]. split; [reflexivity|].
  rewrite (store_message_known thread_id "assistant" text db1 thread others)
    by (rewrite Hc; by rewrite (proj1 (store_message_threads _ _ _ _))).
  rewrite Hm, (store_message_known _ _ _ _ _ _ Hthread), <- app_assoc.
  reflexivity.
Qed.

(** X21. The loop of [send_message] ends only on the statuses it names:
    as long as the polls answer other statuses, whichever they are, it
    goes on polling and writes nothing, and [send_message] has not
    returned when the answers run out. *)
Theorem send_message_keeps_polling (now : Z) (assistant : Assistant.t)
    (thread_id message user_id : string) (db : DB) :
  Forall (λ run, Run.status run ∉ handled_statuses) (Assistant.polls assistant) →
  send_message upsert cfg now assistant thread_id message user_id db
  = (Polling, _store_message thread_id "user" message db).
Proof.
  intros Hall. unfold send_message.
  assert (Hwait : ∀ db0, wait_for_completion upsert cfg now user_id
                           (Assistant.polls assistant) db0 = (Polling, db0)).
  { induction Hall as [|run later Hrun _ IH]; intros db0; [reflexivity|].
    cbn [wait_for_completion]. unfold handled_statuses in Hrun.
    rewrite decide_False
      by (intros Heq; apply Hrun; rewrite Heq; apply list_elem_of_here).
    rewrite decide_False
      by (intros Heq; apply Hrun; rewrite Heq;
          apply list_elem_of_further, list_elem_of_here).
    rewrite decide_False
      by (intros Hin; apply Hrun; do 2 apply list_elem_of_further; exact Hin).
    apply IH. }
  by rewrite Hwait.
Qed.

End messages.

(** Mallory writes on a handle the store does not know. *)
Lemma send_message_unknown_thread_witness :
  (∀ t, t ∈ conversation_threads chat_db →
        Thread.openai_thread_id t ≠ "thread_xyz")
  ∧ messages (send_message upsert_append settings 7 accepting_assistant
                "thread_xyz" "Hello" "mallory" chat_db).2 = messages chat_db.
Proof.
  assert (H : ∀ t, t ∈ conversation_threads chat_db →
                   Thread.openai_thread_id t ≠ "thread_xyz").
  { intros t Ht. apply list_elem_of_singleton in Ht. subst t. discriminate. }
  split; [exact H|].
  exact (send_message_unknown_thread upsert_append settings 7
           accepting_assistant "thread_xyz" "Hello" "mallory" chat_db H).
Defined.

(** The accepting run on the thread of alice. *)
Lemma send_message_completed_witness :
  let result :=
    send_message upsert_append settings 7 accepting_assistant "thread_abc"
      "Yes, I accept" "alice" chat_db in
  filter (λ t, Thread.openai_thread_id t = "thread_abc")
    (conversation_threads chat_db) = [thread_abc]
  ∧ (wait_for_completion upsert_append settings 7 "alice"
       (Assistant.polls accepting_assistant)
       (_store_message "thread_abc" "user" "Yes, I accept" chat_db)).1
    = Returned tt
  ∧ Assistant.listing accepting_assistant
    = [[Some "Your loan is approved."]]
  ∧ result.1 = Returned (Some {| ChatReply.message := "Your loan is approved.";
                                 ChatReply.thread_id := "thread_abc";
                                 ChatReply.role := "assistant" |})
  ∧ messages result.2
    = messages chat_db
      ++ [{| Message.thread_id := Thread.id thread_abc; Message.role := "user";
             Message.content := "Yes, I accept" |};
          {| Message.thread_id := Thread.id thread_abc;
             Message.role := "assistant";
             Message.content := "Your loan is approved." |}].
Proof.
  assert (H1 : filter (λ t, Thread.openai_thread_id t = "thread_abc")
                 (conversation_threads chat_db) = [thread_abc])
    by reflexivity.
  assert (H2 : (wait_for_completion upsert_append settings 7 "alice"
                  (Assistant.polls accepting_assistant)
                  (_store_message "thread_abc" "user" "Yes, I accept"
                     chat_db)).1 = Returned tt)
    by (vm_compute; reflexivity).
  assert (H3 : Assistant.listing accepting_assistant
               = [[Some "Your loan is approved."]]) by reflexivity.
  split; [exact H1|]. split; [exact H2|]. split; [exact H3|].
  exact (send_message_completed upsert_append settings 7 accepting_assistant
           "thread_abc" "Yes, I accept" "alice" chat_db thread_abc []
           "Your loan is approved." [] [] H1 H2 H3).
Defined.

(** A run that is queued and then incomplete: the loop does not end. *)
Lemma send_message_keeps_polling_witness :
  let assistant :=
    {| Assistant.polls := stalled_polls; Assistant.listing := [] |} in
  Forall (λ run, Run.status run ∉ handled_statuses) stalled_polls
  ∧ send_message upsert_append settings 7 assistant "thread_abc" "Hello"
      "alice" chat_db
    = (Polling, _store_message "thread_abc" "user" "Hello" chat_db).
Proof.
  assert (H : Forall (λ run, Run.status run ∉ handled_statuses) stalled_polls).
  { repeat constructor; intros H; unfold handled_statuses in H; cbn in H;
      not_among H. }
  split; [exact H|].
  exact (send_message_keeps_polling upsert_append settings 7
           {| Assistant.polls := stalled_polls; Assistant.listing := [] |}
           "thread_abc" "Hello" "alice" chat_db H).
Defined.

(* ===================================================================== *)
(** * Further properties: the chat route and two tool handlers *)
(* ===================================================================== *)

Lemma taken_elem {A} (n : nat) (l : list A) (x : A) : x ∈ take n l → x ∈ l.
Proof.
  intros Hx. apply list_elem_of_lookup in Hx as [i Hi].
  apply lookup_take_Some in Hi as [Hi _].
  apply list_elem_of_lookup. by exists i.
Qed.

Lemma store_message_prefix (thread_id role content : string) (db : DB) :
  messages db `prefix_of` messages (_store_message thread_id role content db).
Proof.
  unfold _store_message. destruct (filter _ (conversation_threads db));
    [done|by apply prefix_app_r].
Qed.

Section chat_route.

Context (upsert : gmap string json → list (gmap string json)
                  → list (gmap string json)).
Context (cfg : Settings).
Context (str : exn → string).

(** What a turn does to the threads and to the messages: it writes no
    thread and only appends messages, after the user's. *)
Lemma send_message_appends (now : Z) (assistant : Assistant.t)
    (thread_id message user_id : string) (db : DB) :
  let db' :=
    (send_message upsert cfg now assistant thread_id message user_id db).2 in
  conversation_threads db' = conversation_threads db
  ∧ messages (_store_message thread_id "user" message db)
    `prefix_of` messages db'.
Proof.
  unfold send_message.
  pose proof (wait_for_completion_keeps upsert cfg now user_id
                (Assistant.polls assistant)
                (_store_message thread_id "user" message db))
    as (_ & _ & Hc & Hm).
  rewrite (proj1 (store_message_threads _ _ _ _)) in Hc.
  destruct (wait_for_completion upsert cfg now user_id
              (Assistant.polls assistant) _) as [[[]|e|] db1];
    cbn [snd] in *; try (split; [exact Hc|by rewrite Hm]).
  destruct (Assistant.listing assistant) as [|[|[text|] ?] ?]; cbn [snd];
    try (split; [exact Hc|by rewrite Hm]).
  split.
  - by rewrite (proj1 (store_message_threads _ _ _ _)).
  - rewrite <- Hm. apply store_message_prefix.
Qed.


(** X23. A handle given in the body of [chat] is used without a look at
    its owner: when some thread of the store has the handle, whoever it
    belongs to, the caller's message is appended to that thread, and no
    thread is looked up or created for the caller. *)
Theorem chat_given_thread (now : Z) (new_thread : string) (g : Generated)
    (assistant : Assistant.t) (request : ChatRequest.t) (current_user : User.t)
    (db : DB) (handle : string) (thread : Thread.t) (others : list Thread.t) :
  ChatRequest.thread_id request = Some handle →
  handle ≠ "" →
  filter (λ t, Thread.openai_thread_id t = handle) (conversation_threads db)
  = thread :: others →
  let db' :=
    (chat upsert cfg str now new_thread g assistant request current_user db).2 in
  conversation_threads db' = conversation_threads db
  ∧ (messages db
     ++ [{| Message.thread_id := Thread.id thread; Message.role := "user";
            Message.content := ChatRequest.message request |}])
    `prefix_of` messages db'.
Proof.
  intros Hreq Hne Hthread. unfold chat. rewrite Hreq.
  rewrite decide_False by exact Hne.
  pose proof (send_message_appends now assistant handle
                (ChatRequest.message request) (User.id current_user) db)
    as [Hc Hm].
  rewrite (store_message_known _ _ _ _ _ _ Hthread) in Hm.
  destruct (send_message upsert cfg now assistant handle
              (ChatRequest.message request) (User.id current_user) db)
    as [[[reply|]|e|] db1]; cbn [snd] in *; done.
Qed.

(** X24. The [get_loan_info] tool reads for the caller, whatever its
    arguments say: it writes nothing and returns the caller's loans, all
    of them and no other, newest first, and at most ten transactions, all
    of them the caller's, newest first, none older than a transaction of
    the caller that it leaves out. *)
Theorem get_loan_info_own_rows (now : Z) (arguments : json) (user_id : string)
    (db : DB) :
  ∃ ls ts,
    _execute_function upsert cfg now "get_loan_info" arguments user_id db
    = (Ok (LoanInfoDict ls ts), db)
    ∧ (∀ l, l ∈ ls ↔ l ∈ loans db ∧ Loan.user_id l = user_id)
    ∧ newest_first Loan.created_at ls
    ∧ (length ts ≤ 10)%nat
    ∧ (∀ t, t ∈ ts → t ∈ transactions db ∧ Transaction.user_id t = user_id)
    ∧ newest_first Transaction.created_at ts
    ∧ (∀ t t', t ∈ ts → t' ∈ transactions db →
               Transaction.user_id t' = user_id → t' ∉ ts →
               Transaction.created_at t' ≤ Transaction.created_at t).
Proof.
  eexists _, _. split; [reflexivity|].
  set (sorted := order_desc Transaction.created_at
                   (filter (λ t, Transaction.user_id t = user_id)
                      (transactions db))).
  assert (Hsorted : newest_first Transaction.created_at sorted)
    by apply order_desc_newest_first.
  split; [|split; [|split; [|split; [|split]]]].
  - intros l. rewrite order_desc_perm, list_elem_of_filter. tauto.
  - apply order_desc_newest_first.
  - rewrite length_take. lia.
  - intros t Ht. apply taken_elem in Ht.
    subst sorted. rewrite order_desc_perm in Ht.
    apply list_elem_of_filter in Ht. tauto.
  - by apply newest_first_take.
  - intros t t' Ht Ht' Hu Hout.
    apply (newest_first_cut Transaction.created_at 10 sorted t t' Hsorted Ht).
    assert (Hin : t' ∈ sorted).
    { subst sorted. rewrite order_desc_perm. by apply list_elem_of_filter. }
    rewrite <- (take_drop 10 sorted) in Hin.
    apply elem_of_app in Hin as [Hin|Hin]; done.
Qed.

(** X25. The row [_complete_onboarding] hands to the store: the keys of
    [profile_data] as given, the [user_id] of the arguments unless
    [profile_data] has one of its own, and the completion flag and time,
    which [profile_data] cannot set otherwise. *)
Theorem complete_onboarding_row (d profile_data : gmap string json)
    (user_id : json) (db : DB) :
  d !! "user_id" = Some user_id →
  d !! "profile_data" = Some (JObj profile_data) →
  ∃ row,
    _complete_onboarding upsert (JObj d) db
    = (Ok (OnboardingDict true true),
       with_customer_profiles (upsert row (customer_profiles db)) db)
    ∧ row !! "onboarding_completed" = Some (JBool true)
    ∧ row !! "onboarding_completed_at" = Some (JStr "now()")
    ∧ row !! "user_id" = Some (default user_id (profile_data !! "user_id"))
    ∧ ∀ key, key ∉ ["onboarding_completed"; "onboarding_completed_at";
                     "user_id"] →
             row !! key = profile_data !! key.
Proof.
  intros Hu Hp. eexists. split; [|split; [|split; [|split]]].
  - unfold _complete_onboarding. rewrite Hu, Hp. reflexivity.
  - rewrite lookup_insert_ne by discriminate. apply lookup_insert_eq.
  - apply lookup_insert_eq.
  - rewrite !lookup_insert_ne by discriminate.
    rewrite lookup_union. rewrite lookup_singleton_eq.
    destruct (profile_data !! "user_id"); reflexivity.
  - intros key Hkey.
    rewrite !lookup_insert_ne
      by (intros <-; apply Hkey;
          repeat first [apply list_elem_of_here | apply list_elem_of_further]).
    rewrite lookup_union, lookup_singleton_ne
      by (intros <-; apply Hkey;
          repeat first [apply list_elem_of_here | apply list_elem_of_further]).
    destruct (profile_data !! key); reflexivity.
Qed.

End chat_route.

(** Mallory's message lands in the thread of alice. *)
Lemma chat_given_thread_witness :
  let db' :=
    (chat upsert_append settings sample_str 7 "thread_new"
       {| uuid := "t-2"; now := 60 |} accepting_assistant intruding_request
       mallory chat_db).2 in
  ChatRequest.thread_id intruding_request = Some "thread_abc"
  ∧ "thread_abc" ≠ ""
  ∧ filter (λ t, Thread.openai_thread_id t = "thread_abc")
      (conversation_threads chat_db) = [thread_abc]
  ∧ conversation_threads db' = conversation_threads chat_db
  ∧ (messages chat_db
     ++ [{| Message.thread_id := Thread.id thread_abc; Message.role := "user";
            Message.content := ChatRequest.message intruding_request |}])
    `prefix_of` messages db'.
Proof.
  assert (H1 : ChatRequest.thread_id intruding_request = Some "thread_abc")
    by reflexivity.
  assert (H2 : "thread_abc" ≠ "") by discriminate.
  assert (H3 : filter (λ t, Thread.openai_thread_id t = "thread_abc")
                 (conversation_threads chat_db) = [thread_abc])
    by reflexivity.
  split; [exact H1|]. split; [exact H2|]. split; [exact H3|].
  exact (chat_given_thread upsert_append settings sample_str 7 "thread_new"
           {| uuid := "t-2"; now := 60 |} accepting_assistant intruding_request
           mallory chat_db "thread_abc" thread_abc [] H1 H2 H3).
Defined.

(** The completion flag of the profile data is overridden. *)
Lemma complete_onboarding_row_witness :
  onboarding_fields !! "user_id" = Some (JStr "alice")
  ∧ onboarding_fields !! "profile_data" = Some (JObj onboarding_profile)
  ∧ ∃ row,
      _complete_onboarding upsert_append (JObj onboarding_fields) chat_db
      = (Ok (OnboardingDict true true),
         with_customer_profiles
           (upsert_append row (customer_profiles chat_db)) chat_db)
      ∧ row !! "onboarding_completed" = Some (JBool true)
      ∧ row !! "onboarding_completed_at" = Some (JStr "now()")
      ∧ row !! "user_id"
        = Some (default (JStr "alice") (onboarding_profile !! "user_id"))
      ∧ ∀ key, key ∉ ["onboarding_completed"; "onboarding_completed_at";
                       "user_id"] →
               row !! key = onboarding_profile !! key.
Proof.
  assert (H1 : onboarding_fields !! "user_id" = Some (JStr "alice"))
    by reflexivity.
  assert (H2 : onboarding_fields !! "profile_data"
               = Some (JObj onboarding_profile)) by reflexivity.
  split; [exact H1|]. split; [exact H2|].
  exact (complete_onboarding_row upsert_append onboarding_fields
           onboarding_profile (JStr "alice") chat_db H1 H2).
Defined.

(** A failed run, as the caller of [chat] sees it. *)
Example chat_failed_run :
  (chat upsert_append settings sample_str 7 "thread_new"
     {| uuid := "t-2"; now := 60 |} failing_assistant
     {| ChatRequest.message := "I need a loan"; ChatRequest.thread_id := None |}
     alice chat_db).1
  = Raised (HTTPException 500
              (Text "Chat error: Run failed with status: failed")).
Proof. vm_compute. reflexivity. Qed.
